(** * AI-Chat-System: the browser-side controller and its HTTP gateway

    A shallow embedding of [src/js/app.js] (the state controller returned by
    [setupApp]) and of [api.js] (the gateway built on [apiFetch]).

    - JavaScript values that cross the wire are the inductive [value].
    - The Vue refs of [setupApp] are the fields of the record [State].
    - An [async] function is a computation [M A]: it threads the [World]
      (refs, logical clock, pending timers, log of HTTP requests) and ends
      either normally or by throwing, as [await] makes a rejected promise do.
    - The remote service is an arbitrary stream [network] of outcomes of
      [fetch]; the k-th request of a run is answered by [network k].
    - Every transition is run to completion without interleaving another one;
      time passes between transitions ([advance]), where due timers fire.
    - DOM-only effects ([scrollToBottom], what the fade-out timer does when it
      fires) touch none of the refs and are left out.
    - Text in the refs and on the wire is a byte string, the UTF-8 form of
      the JavaScript string. The text of the textarea, which the keyboard
      handler cuts at positions that count UTF-16 code units, is the list of
      its code units; [utf8] gives the bytes of such a list. *)

From Stdlib Require Import String Ascii List ZArith Bool Lia DecimalString.
Import ListNotations.
Open Scope string_scope.
Open Scope Z_scope.
Set Warnings "-register-all".

(** ** JavaScript values *)

(** Values produced by [res.json()] / [res.text()], plus [undefined].
    [VNum] holds the integral numbers of the wire contract. An object is the
    list of its own properties, first binding of a key first. *)
Inductive value : Type :=
| VUndef
| VNull
| VBool (b : bool)
| VNum (n : Z)
| VStr (s : string)
| VArr (items : list value)
| VObj (props : list (string * value)).

(** An exception object; only [e.message] is ever read by the controller. *)
Record JsError : Type := MkError { message : string }.

(** How an awaited computation ends. *)
Inductive completion (A : Type) : Type :=
| Normal (a : A)
| Throw (e : JsError).
Arguments Normal {A} a.
Arguments Throw {A} e.

(** ToBoolean. *)
Definition truthy (v : value) : bool :=
  match v with
  | VUndef | VNull => false
  | VBool b => b
  | VNum n => negb (n =? 0)
  | VStr s => negb (s =? "")%string
  | VArr _ | VObj _ => true
  end.

(** [Array.isArray]. *)
Definition isArray (v : value) : bool :=
  match v with VArr _ => true | _ => false end.

Fixpoint lookup_prop (k : string) (props : list (string * value)) : value :=
  match props with
  | [] => VUndef
  | (k', v) :: rest => if (k =? k')%string then v else lookup_prop k rest
  end.

(** [v.k] for a property name [k] that no built-in prototype defines
    ([id], [messages]): reading it off [null] or [undefined] is a TypeError,
    off an object it is the own property, off anything else [undefined]. *)
Definition get_prop (v : value) (k : string) : completion value :=
  match v with
  | VUndef =>
      Throw (MkError ("Cannot read properties of undefined (reading '" ++ k ++ "')"))
  | VNull =>
      Throw (MkError ("Cannot read properties of null (reading '" ++ k ++ "')"))
  | VObj props => Normal (lookup_prop k props)
  | _ => Normal VUndef
  end.

(** [id === v] for a string [id]. *)
Definition strict_eq_str (id : string) (v : value) : bool :=
  match v with
  | VStr s => (id =? s)%string
  | _ => false
  end.

(** Template-literal rendering of an integral number. *)
Definition string_of_Z (n : Z) : string :=
  NilZero.string_of_int (Z.to_int n).

(** ** Strings *)

(** [hay.includes(needle)]. *)
Fixpoint includes (needle hay : string) : bool :=
  if prefix needle hay then true
  else match hay with
       | EmptyString => false
       | String _ rest => includes needle rest
       end.

(** [s.replace(/\/$/, '')]: without the [m] flag [$] matches only at the end
    of the input, so exactly one final ['/'] is dropped when there is one. *)
Fixpoint strip_trailing_slash (s : string) : string :=
  match s with
  | EmptyString => EmptyString
  | String c EmptyString => if (c =? "/")%char then EmptyString else s
  | String c rest => String c (strip_trailing_slash rest)
  end.

Fixpoint ends_with_slash (s : string) : bool :=
  match s with
  | EmptyString => false
  | String c EmptyString => (c =? "/")%char
  | String _ rest => ends_with_slash rest
  end.

(** ** The host and the network *)

(** Built-ins of the JavaScript host that the code calls. *)
Class Host : Type := {
  (** [encodeURIComponent(v)]; it throws a URIError on a lone surrogate. *)
  encodeURIComponent : value -> completion string;
  (** [String.prototype.trim]. *)
  trim : string -> string;
  (** [new Date().toISOString()] when the clock reads the given instant. *)
  toISOString : Z -> string
}.

(** What [fetch] hands back: the parts of a [Response] that [apiFetch] reads.
    [json] and [text] are what [res.json()] and [res.text()] settle to. *)
Record Response : Type := {
  status : Z;
  statusText : string;
  contentType : option string;
  json : completion value;
  text : completion string
}.

(** [res.ok]: the status is in the range 200-299. *)
Definition ok (r : Response) : bool :=
  (200 <=? status r) && (status r <=? 299).

Inductive FetchOutcome : Type :=
| Rejected (e : JsError)
| Responded (r : Response).

(** The request given to [fetch]. [body] holds the value whose
    [JSON.stringify] text is sent. *)
Record Request : Type := {
  url : string;
  method : string;
  headers : list (string * string);
  body : option value
}.

(** ** Controller state *)

(** The refs declared at the top of [setupApp]. [sessions] only ever holds an
    array; [messages] can be given any truthy [data.messages]. *)
Record State : Type := {
  apiBase : string;
  sessions : list value;
  currentSessionId : value;
  messages : value;
  newMessage : string;
  loading : bool;
  error : string;
  currentTheme : string
}.

(** A callback registered with [setTimeout]. *)
Inductive TimerAction : Type :=
| ClearError
| FadeOut.

Record World : Type := {
  refs : State;
  clock : Z;
  timers : list (Z * TimerAction);
  requests : list Request
}.

Definition initial_state : State :=
  {| apiBase := "http://127.0.0.1:8000/api";
     sessions := [];
     currentSessionId := VNull;
     messages := VArr [];
     newMessage := "";
     loading := false;
     error := "";
     currentTheme := "default" |}.

Definition initial_world : World :=
  {| refs := initial_state; clock := 0; timers := []; requests := [] |}.

Definition with_refs (f : State -> State) (w : World) : World :=
  {| refs := f (refs w); clock := clock w; timers := timers w;
     requests := requests w |}.

Definition put_sessions (x : list value) (s : State) : State :=
  {| apiBase := apiBase s; sessions := x;
     currentSessionId := currentSessionId s; messages := messages s;
     newMessage := newMessage s; loading := loading s; error := error s;
     currentTheme := currentTheme s |}.

Definition put_currentSessionId (x : value) (s : State) : State :=
  {| apiBase := apiBase s; sessions := sessions s;
     currentSessionId := x; messages := messages s;
     newMessage := newMessage s; loading := loading s; error := error s;
     currentTheme := currentTheme s |}.

Definition put_messages (x : value) (s : State) : State :=
  {| apiBase := apiBase s; sessions := sessions s;
     currentSessionId := currentSessionId s; messages := x;
     newMessage := newMessage s; loading := loading s; error := error s;
     currentTheme := currentTheme s |}.

Definition put_newMessage (x : string) (s : State) : State :=
  {| apiBase := apiBase s; sessions := sessions s;
     currentSessionId := currentSessionId s; messages := messages s;
     newMessage := x; loading := loading s; error := error s;
     currentTheme := currentTheme s |}.

Definition put_loading (x : bool) (s : State) : State :=
  {| apiBase := apiBase s; sessions := sessions s;
     currentSessionId := currentSessionId s; messages := messages s;
     newMessage := newMessage s; loading := x; error := error s;
     currentTheme := currentTheme s |}.

Definition put_error (x : string) (s : State) : State :=
  {| apiBase := apiBase s; sessions := sessions s;
     currentSessionId := currentSessionId s; messages := messages s;
     newMessage := newMessage s; loading := loading s; error := x;
     currentTheme := currentTheme s |}.

(** ** The monad of asynchronous computations *)

Definition M (A : Type) : Type := World -> completion A * World.

Definition ret {A} (a : A) : M A := fun w => (Normal a, w).

Definition throw {A} (e : JsError) : M A := fun w => (Throw e, w).

Definition bind {A B} (m : M A) (k : A -> M B) : M B :=
  fun w =>
    match m w with
    | (Normal a, w') => k a w'
    | (Throw e, w') => (Throw e, w')
    end.

Notation "x <- m ;; k" := (bind m (fun x => k))
  (at level 61, m at next level, right associativity).
Notation "m ;;; k" := (bind m (fun _ => k))
  (at level 61, right associativity).

(** Lift the completion of a host call. *)
Definition settle {A} (c : completion A) : M A := fun w => (c, w).

(** [try { body } catch (e) { handler e }]. *)
Definition try_catch {A} (body : M A) (handler : JsError -> M A) : M A :=
  fun w =>
    match body w with
    | (Normal a, w') => (Normal a, w')
    | (Throw e, w') => handler e w'
    end.

(** [try { body } finally { fin }]: [fin] runs on both exits and a throw of
    its own replaces the completion of [body]. *)
Definition try_finally {A} (body : M A) (fin : M unit) : M A :=
  fun w =>
    match body w with
    | (c, w') =>
        match fin w' with
        | (Normal _, w'') => (c, w'')
        | (Throw e, w'') => (Throw e, w'')
        end
    end.

Definition get {A} (f : State -> A) : M A := fun w => (Normal (f (refs w)), w).

Definition modify (f : State -> State) : M unit :=
  fun w => (Normal tt, with_refs f w).

(** [setTimeout(cb, delay)]. *)
Definition setTimeout (cb : TimerAction) (delay : Z) : M unit :=
  fun w =>
    (Normal tt,
     {| refs := refs w; clock := clock w;
        timers := timers w ++ [(clock w + delay, cb)];
        requests := requests w |}).

Definition when (b : bool) (m : M unit) : M unit :=
  if b then m else ret tt.

(** The instant [new Date()] captures. *)
Definition Date_now : M Z := fun w => (Normal (clock w), w).

(** What a due timer does to the refs. [FadeOut] is the animation callback
    of [sendMsg]: it looks up the last assistant bubble and arranges for its
    fade-out class, all in the DOM. *)
Definition fire (a : TimerAction) (s : State) : State :=
  match a with
  | ClearError => put_error "" s
  | FadeOut => s
  end.

(** Let [dt] milliseconds pass with no transition running: every timer that
    has come due fires and is dropped. *)
Definition advance (dt : Z) (w : World) : World :=
  let t := clock w + dt in
  {| refs := fold_left (fun s p => fire (snd p) s)
                       (filter (fun p => fst p <=? t) (timers w)) (refs w);
     clock := t;
     timers := filter (fun p => negb (fst p <=? t)) (timers w);
     requests := requests w |}.

(** The world a computation leaves behind, and how it ended. *)
Definition exec {A} (m : M A) (w : World) : World := snd (m w).
Definition outcome {A} (m : M A) (w : World) : completion A := fst (m w).

Section Controller.

Context {host : Host}.

(** The remote service: [network k] answers the k-th call of [fetch]. *)
Variable network : nat -> FetchOutcome.

(** ** api.js *)

Definition fetch (req : Request) : M Response :=
  fun w =>
    let w' := {| refs := refs w; clock := clock w; timers := timers w;
                 requests := requests w ++ [req] |} in
    match network (length (requests w)) with
    | Rejected e => (Throw e, w')
    | Responded r => (Normal r, w')
    end.

(** [res.headers.get(name) || '']. *)
Definition header_or_empty (h : option string) : string :=
  match h with
  | Some s => s
  | None => ""
  end.

(** Steps 5 and 6 of [apiFetch]: what a response is turned into. *)
Definition read_response (res : Response) : completion value :=
  if negb (ok res) then
    Throw (MkError ("API error: " ++ string_of_Z (status res) ++ " "
                      ++ statusText res))
  else
    let contentType := header_or_empty (contentType res) in
    if includes "application/json" contentType then json res
    else match text res with
         | Normal t => Normal (VStr t)
         | Throw e => Throw e
         end.

Definition request_url (apiBase path : string) : string :=
  strip_trailing_slash apiBase ++ path.

Definition apiFetch (apiBase path method : string) (payload : option value)
  : M value :=
  let url := request_url apiBase path in
  let opt := {| url := url; method := method;
                headers := [("Content-Type", "application/json")];
                body := payload |} in
  res <- fetch opt ;;
  settle (read_response res).

Definition loadSessions (apiBase : string) : M value :=
  apiFetch apiBase "/sessions" "GET" None.

Definition createSession (apiBase : string) : M value :=
  apiFetch apiBase "/sessions" "POST" None.

Definition getMessages (apiBase : string) (sessionId : value) : M value :=
  sid <- settle (encodeURIComponent sessionId) ;;
  apiFetch apiBase ("/sessions/" ++ sid ++ "/messages") "GET" None.

Definition sendMessage (apiBase : string) (sessionId : value)
    (content : string) : M value :=
  sid <- settle (encodeURIComponent sessionId) ;;
  apiFetch apiBase ("/sessions/" ++ sid ++ "/messages") "POST"
           (Some (VObj [("content", VStr content)])).

Definition rollback (apiBase : string) (sessionId : value) (toIndex : Z)
  : M value :=
  sid <- settle (encodeURIComponent sessionId) ;;
  apiFetch apiBase ("/sessions/" ++ sid ++ "/rollback") "POST"
           (Some (VObj [("to_index", VNum toIndex)])).

Definition deleteMessage (apiBase : string) (sessionId : value)
    (msgIndex : Z) : M value :=
  sid <- settle (encodeURIComponent sessionId) ;;
  apiFetch apiBase
           ("/sessions/" ++ sid ++ "/messages/" ++ string_of_Z msgIndex)
           "DELETE" None.

Definition deleteSession (apiBase : string) (sessionId : value) : M value :=
  sid <- settle (encodeURIComponent sessionId) ;;
  apiFetch apiBase ("/sessions/" ++ sid) "DELETE" None.

(** ** app.js *)

Definition setError (msg : string) : M unit :=
  modify (put_error msg) ;;;
  when (negb (msg =? "")%string) (setTimeout ClearError 5000).

(** [messages.value.push(x)]. *)
Definition push (x : value) : M unit :=
  m <- get messages ;;
  match m with
  | VArr l => modify (put_messages (VArr (l ++ [x])))
  | _ => throw (MkError "messages.value.push is not a function")
  end.

(** [messages.value.pop()]. *)
Definition pop : M unit :=
  m <- get messages ;;
  match m with
  | VArr l => modify (put_messages (VArr (removelast l)))
  | _ => throw (MkError "messages.value.pop is not a function")
  end.

(** The block
    [if (Array.isArray(data)) messages.value = data;
     else if (data && data.messages) messages.value = data.messages;]
    that [sendMsg], [rollbackTo] and [deleteMsg] each contain. *)
Definition reconcile (data : value) : M unit :=
  if isArray data then modify (put_messages data)
  else if truthy data then
    m <- settle (get_prop data "messages") ;;
    when (truthy m) (modify (put_messages m))
  else ret tt.

Definition loadMessagesList : M unit :=
  cur <- get currentSessionId ;;
  if negb (truthy cur) then ret tt
  else
    setError "" ;;;
    modify (put_loading true) ;;;
    try_finally
      (try_catch
         (base <- get apiBase ;;
          cur <- get currentSessionId ;;
          data <- getMessages base cur ;;
          modify (put_messages (if isArray data then data else VArr [])))
         (fun e => setError ("加载消息失败：" ++ message e)))
      (modify (put_loading false)).

Definition loadSessionsList : M unit :=
  setError "" ;;;
  try_catch
    (base <- get apiBase ;;
     data <- loadSessions base ;;
     modify (put_sessions (match data with VArr l => l | _ => [] end)) ;;;
     ss <- get sessions ;;
     cur <- get currentSessionId ;;
     if negb (length ss =? 0)%nat && negb (truthy cur) then
       id <- settle (get_prop (nth 0 ss VUndef) "id") ;;
       modify (put_currentSessionId id) ;;;
       loadMessagesList
     else ret tt)
    (fun e => setError ("加载会话列表失败：" ++ message e)).

Definition selectSession (id : string) : M unit :=
  cur <- get currentSessionId ;;
  if (id =? "")%string || strict_eq_str id cur then ret tt
  else
    modify (put_currentSessionId (VStr id)) ;;;
    loadMessagesList.

Definition createNewSession : M unit :=
  setError "" ;;;
  modify (put_loading true) ;;;
  try_finally
    (try_catch
       (base <- get apiBase ;;
        createSession base ;;;
        modify (put_messages (VArr [])) ;;;
        loadSessionsList)
       (fun e => setError ("新建会话失败：" ++ message e)))
    (modify (put_loading false)).

(** The optimistic message [sendMsg] builds for [text] when the clock reads
    [now]. *)
Definition userMsg (text : string) (now : Z) : value :=
  VObj [("role", VStr "user");
        ("content", VStr text);
        ("created_at", VStr (toISOString now))].

Definition sendMsg : M unit :=
  cur <- get currentSessionId ;;
  if negb (truthy cur) then setError "请先选择或创建会话"
  else
    nm <- get newMessage ;;
    let text := trim nm in
    cur <- get currentSessionId ;;
    if (text =? "")%string || negb (truthy cur) then ret tt
    else
      setError "" ;;;
      modify (put_loading true) ;;;
      now <- Date_now ;;
      push (userMsg text now) ;;;
      modify (put_newMessage "") ;;;
      try_finally
        (try_catch
           (base <- get apiBase ;;
            cur <- get currentSessionId ;;
            data <- sendMessage base cur text ;;
            reconcile data ;;;
            setTimeout FadeOut 500 ;;;
            loadSessionsList)
           (fun e =>
              pop ;;;
              setError ("发送消息失败：" ++ message e)))
        (modify (put_loading false)).

Definition rollbackTo (index : Z) : M unit :=
  cur <- get currentSessionId ;;
  if negb (truthy cur) then ret tt
  else
    setError "" ;;;
    modify (put_loading true) ;;;
    try_finally
      (try_catch
         (base <- get apiBase ;;
          cur <- get currentSessionId ;;
          data <- rollback base cur index ;;
          reconcile data ;;;
          loadSessionsList)
         (fun e => setError ("回滚失败：" ++ message e)))
      (modify (put_loading false)).

(** [confirmed] is the user's answer to [confirm(...)]. *)
Definition deleteMsg (index : Z) (confirmed : bool) : M unit :=
  cur <- get currentSessionId ;;
  if negb (truthy cur) then ret tt
  else if negb confirmed then ret tt
  else
    setError "" ;;;
    modify (put_loading true) ;;;
    try_finally
      (try_catch
         (base <- get apiBase ;;
          cur <- get currentSessionId ;;
          data <- deleteMessage base cur index ;;
          reconcile data ;;;
          loadSessionsList)
         (fun e => setError ("删除消息失败：" ++ message e)))
      (modify (put_loading false)).

(** [confirmed] is the user's answer to [confirm(...)]. *)
Definition deleteSess (sessionId : string) (confirmed : bool) : M unit :=
  if negb confirmed then ret tt
  else
    setError "" ;;;
    modify (put_loading true) ;;;
    try_finally
      (try_catch
         (base <- get apiBase ;;
          deleteSession base (VStr sessionId) ;;;
          loadSessionsList ;;;
          cur <- get currentSessionId ;;
          if strict_eq_str sessionId cur then
            ss <- get sessions ;;
            if (0 <? length ss)%nat then
              id <- settle (get_prop (nth 0 ss VUndef) "id") ;;
              modify (put_currentSessionId id) ;;;
              loadMessagesList
            else
              modify (put_currentSessionId VNull) ;;;
              modify (put_messages (VArr []))
          else ret tt)
         (fun e => setError ("删除会话失败：" ++ message e)))
      (modify (put_loading false)).

End Controller.

(** ** app.js: theme, keyboard and computed state *)

(** [s.startsWith(p)]. *)
Definition startsWith (p s : string) : bool := prefix p s.

(** The configured themes, [window.CHAT_THEMES] when it is a non-empty array
    and the built-in single default otherwise. [CHAT_THEMES] is [VUndef] when
    the page defines none. *)
Definition themeOptions (CHAT_THEMES : value) : list value :=
  let items := match CHAT_THEMES with
               | VArr l => l
               | _ => []
               end in
  if truthy CHAT_THEMES && isArray CHAT_THEMES && negb (length items =? 0)%nat
  then items
  else [VObj [("key", VStr "default"); ("label", VStr "默认主题")]].

(** [x?.k]: [undefined] off [null] and [undefined], the property otherwise. *)
Definition optional_prop (x : value) (k : string) : value :=
  match x with
  | VUndef | VNull => VUndef
  | _ => match get_prop x k with
         | Normal v => v
         | Throw _ => VUndef
         end
  end.

(** The initial value of [currentTheme]:
    [themeOptions.value[0]?.key || 'default']. *)
Definition initialTheme (options : list value) : value :=
  let key := optional_prop (nth 0 options VUndef) "key" in
  if truthy key then key else VStr "default".

(** ASCII whitespace, which no token of a [DOMTokenList] may contain. *)
Definition is_token_space (c : ascii) : bool :=
  let n := N_of_ascii c in
  ((n =? 9) || (n =? 10) || (n =? 12) || (n =? 13) || (n =? 32))%N.

Fixpoint has_token_space (s : string) : bool :=
  match s with
  | EmptyString => false
  | String c rest => is_token_space c || has_token_space rest
  end.

(** [cls.remove(c)] on the token set [cls]. *)
Definition classList_remove (c : string) (cls : list string) : list string :=
  filter (fun x => negb (x =? c)%string) cls.

(** [cls.add(c)]: a SyntaxError on the empty token, an InvalidCharacterError
    on one with whitespace; otherwise [c] is appended unless present. *)
Definition classList_add (c : string) (cls : list string)
  : completion (list string) :=
  if (c =? "")%string then
    Throw (MkError "The token provided must not be empty.")
  else if has_token_space c then
    Throw (MkError "The token provided contains HTML space characters, which are not valid in tokens.")
  else if existsb (String.eqb c) cls then Normal cls
  else Normal (cls ++ [c])%list.

(** The loop
    [cls.forEach((c) => { if (c.startsWith('theme-')) cls.remove(c); })]
    from index [k] on, with [n] indices left to visit. [forEach] fixes the
    number of indices when it starts and reads the live list at each index:
    an index past the end of the list as it then is, is skipped. *)
Fixpoint remove_theme_classes (n k : nat) (cls : list string) : list string :=
  match n with
  | O => cls
  | S n' =>
      remove_theme_classes n' (S k)
        match nth_error cls k with
        | Some c => if startsWith "theme-" c then classList_remove c cls
                    else cls
        | None => cls
        end
  end.

(** The watcher of [currentTheme], run on the class list [cls] of
    [document.body]: how it ends, and the class list it leaves (the removals
    stay when [add] throws). *)
Definition theme_watcher (val : string) (cls : list string)
  : completion unit * list string :=
  let cls' := remove_theme_classes (length cls) 0 cls in
  match classList_add ("theme-" ++ val) cls' with
  | Normal cls'' => (Normal tt, cls'')
  | Throw e => (Throw e, cls')
  end.

(** A JavaScript string as the sequence of its UTF-16 code units, each a
    number below 65536. [length], [slice] and the [selectionStart] and
    [selectionEnd] of a textarea count these units: a character outside the
    Basic Multilingual Plane takes two, a Chinese character one. *)
Definition utf16 : Type := list N.

(** The index [i] given to [slice], brought into [0 .. len]. *)
Definition slice_index (len i : Z) : Z :=
  if i <? 0 then Z.max (len + i) 0 else Z.min i len.

(** [s.slice(a, b)] for integral [a], [b]. *)
Definition slice (s : utf16) (a b : Z) : utf16 :=
  let len := Z.of_nat (length s) in
  let from := slice_index len a in
  let to := slice_index len b in
  firstn (Z.to_nat (Z.max (to - from) 0)) (skipn (Z.to_nat from) s).

(** [s.slice(a)]. *)
Definition slice_from (s : utf16) (a : Z) : utf16 :=
  slice s a (Z.of_nat (length s)).

(** ['\n']. *)
Definition newline : utf16 := [10%N].

Definition is_high_surrogate (u : N) : bool :=
  ((0xD800 <=? u) && (u <=? 0xDBFF))%N.

Definition is_low_surrogate (u : N) : bool :=
  ((0xDC00 <=? u) && (u <=? 0xDFFF))%N.

(** The code points of a string: a high surrogate followed by a low one is
    the supplementary code point the pair stands for, every other unit is a
    code point by itself (a surrogate without its partner too, which
    [slice] leaves behind when it cuts a pair in two). *)
Fixpoint code_points (s : utf16) : list N :=
  match s with
  | [] => []
  | u :: rest =>
      match rest with
      | v :: rest' =>
          if is_high_surrogate u && is_low_surrogate v
          then (0x10000 + (u - 0xD800) * 0x400 + (v - 0xDC00))%N
               :: code_points rest'
          else u :: code_points rest
      | [] => [u]
      end
  end.

(** The bytes of one code point: one byte below 0x80, two below 0x800,
    three below 0x10000 and four from there on. *)
Definition utf8_of_code_point (c : N) : string :=
  (if c <? 0x80 then
     String (ascii_of_N c) EmptyString
   else if c <? 0x800 then
     String (ascii_of_N (0xC0 + c / 0x40))
       (String (ascii_of_N (0x80 + c mod 0x40)) EmptyString)
   else if c <? 0x10000 then
     String (ascii_of_N (0xE0 + c / 0x1000))
       (String (ascii_of_N (0x80 + (c / 0x40) mod 0x40))
          (String (ascii_of_N (0x80 + c mod 0x40)) EmptyString))
   else
     String (ascii_of_N (0xF0 + c / 0x40000))
       (String (ascii_of_N (0x80 + (c / 0x1000) mod 0x40))
          (String (ascii_of_N (0x80 + (c / 0x40) mod 0x40))
             (String (ascii_of_N (0x80 + c mod 0x40)) EmptyString))))%N.

(** The byte string that stands for the JavaScript string [s] in the refs:
    the bytes of its code points, one after the other. A surrogate without
    partner is encoded like any other three-byte code point, so that no two
    strings share their bytes. *)
Definition utf8 (s : utf16) : string :=
  String.concat "" (map utf8_of_code_point (code_points s)).

(** The properties of [event.target] that [handleEnterKey] reads and
    writes, taken as a plain record. The positions are those the textarea
    reports: offsets into its text, in code units. *)
Record TextArea : Type := {
  text_value : utf16;
  selectionStart : Z;
  selectionEnd : Z
}.

Record KeyEvent : Type := {
  ctrlKey : bool;
  metaKey : bool;
  target : TextArea
}.

(** [canSend]. *)
Definition canSend {host : Host} (s : State) : bool :=
  negb (loading s) && negb (trim (newMessage s) =? "")%string.

Section Interface.

Context {host : Host}.
Variable network : nat -> FetchOutcome.

(** The result is [event.target] as the handler leaves it. In the second
    branch [sendMsg()] is called and its promise dropped: the handler
    returns normally whatever becomes of it. *)
Definition handleEnterKey (event : KeyEvent) : M TextArea :=
  if ctrlKey event || metaKey event then
    let t := target event in
    let start := selectionStart t in
    let end_ := selectionEnd t in
    let value := text_value t in
    let t' := {| text_value := (slice value 0 start ++ newline
                                  ++ slice_from value end_)%list;
                 selectionStart := start + 1;
                 selectionEnd := start + 1 |} in
    modify (put_newMessage (utf8 (text_value t'))) ;;;
    ret t'
  else
    fun w => (Normal (target event), exec (sendMsg network) w).

End Interface.

(** ** Vocabulary for the statements *)

(** The world after one more request has been handed to [fetch]. *)
Definition sent (req : Request) (w : World) : World :=
  {| refs := refs w; clock := clock w; timers := timers w;
     requests := requests w ++ [req] |}.

(** The world with its request log replaced. *)
Definition set_requests (rs : list Request) (w : World) : World :=
  {| refs := refs w; clock := clock w; timers := timers w; requests := rs |}.

(** What [apiFetch] makes of the outcome of [fetch]. *)
Definition answer (o : FetchOutcome) : completion value :=
  match o with
  | Rejected e => Throw e
  | Responded r => read_response r
  end.

(** The request [apiFetch] builds. *)
Definition mkRequest (apiBase path method : string) (payload : option value)
  : Request :=
  {| url := request_url apiBase path; method := method;
     headers := [("Content-Type", "application/json")]; body := payload |}.

(** [v] is an object with an own property [k]. *)
Definition has_field (k : string) (v : value) : bool :=
  match v with
  | VObj props => existsb (fun p => (k =? fst p)%string) props
  | _ => false
  end.

(** A gateway operation only appends to the request log, and what it does
    depends on nothing but that log. *)
Definition gateway_op (g : M value) : Prop :=
  forall w w', requests w' = requests w ->
    g w' = (outcome g w, set_requests (requests (exec g w)) w').

(** [w'] differs from [w] at most in the messages, the busy flag, the error
    slot, the timers and the request log. *)
Definition messages_refreshed (w w' : World) : Prop :=
  apiBase (refs w') = apiBase (refs w)
  /\ sessions (refs w') = sessions (refs w)
  /\ currentSessionId (refs w') = currentSessionId (refs w)
  /\ newMessage (refs w') = newMessage (refs w)
  /\ currentTheme (refs w') = currentTheme (refs w)
  /\ clock w' = clock w.

(** The data the presentation layer observes: session list, selected-session
    pointer, message sequence. *)
Definition observable (s : State) : list value * value * value :=
  (sessions s, currentSessionId s, messages s).

(** [Array.isArray(data) ? data : []], as an array. *)
Definition array_or_empty (data : value) : list value :=
  match data with
  | VArr l => l
  | _ => []
  end.

(** The pointer is the [id] of some session of the local list. *)
Definition points_into_list (s : State) : Prop :=
  exists v, In v (sessions s) /\ get_prop v "id" = Normal (currentSessionId s).

(** The invariant the data model asks of the selected-session pointer. *)
Definition pointer_invariant (s : State) : Prop :=
  (sessions s <> [] -> points_into_list s)
  /\ (currentSessionId s = VNull -> sessions s = []).



(** The code points that a byte string of [utf8] stands for: the first byte
    of a code point tells how many bytes it takes. *)
Fixpoint code_points_of_utf8 (s : string) : list N :=
  match s with
  | EmptyString => []
  | String b0 r0 =>
      let n0 := N_of_ascii b0 in
      if (n0 <? 0x80)%N then n0 :: code_points_of_utf8 r0
      else
        match r0 with
        | EmptyString => []
        | String b1 r1 =>
            let n1 := (N_of_ascii b1 - 0x80)%N in
            if (n0 <? 0xE0)%N then
              ((n0 - 0xC0) * 0x40 + n1)%N :: code_points_of_utf8 r1
            else
              match r1 with
              | EmptyString => []
              | String b2 r2 =>
                  let n2 := (N_of_ascii b2 - 0x80)%N in
                  if (n0 <? 0xF0)%N then
                    ((n0 - 0xE0) * 0x1000 + n1 * 0x40 + n2)%N
                    :: code_points_of_utf8 r2
                  else
                    match r2 with
                    | EmptyString => []
                    | String b3 r3 =>
                        let n3 := (N_of_ascii b3 - 0x80)%N in
                        ((n0 - 0xF0) * 0x40000 + n1 * 0x1000 + n2 * 0x40
                         + n3)%N
                        :: code_points_of_utf8 r3
                    end
              end
        end
  end.

(** The code units of a code point: itself, or its surrogate pair. *)
Definition units_of_code_point (c : N) : utf16 :=
  if (c <? 0x10000)%N then [c]
  else [0xD800 + (c - 0x10000) / 0x400;
        0xDC00 + (c - 0x10000) mod 0x400]%N.

(** The JavaScript string that the byte string [s] stands for. *)
Definition utf16_of_utf8 (s : string) : utf16 :=
  flat_map units_of_code_point (code_points_of_utf8 s).

(** Every unit of the string is a 16-bit number. *)
Definition well_formed (s : utf16) : Prop :=
  Forall (fun u => (u < 0x10000)%N) s.

(** The timer is one that clears the error slot. *)
Definition is_clear (p : Z * TimerAction) : bool :=
  match snd p with
  | ClearError => true
  | FadeOut => false
  end.


(** The computation [m] never ends by throwing. *)
Definition completes {A} (m : M A) : Prop :=
  forall w, exists a, outcome m w = Normal a.

(** An invariant that reads the refs only. *)
Definition on_refs (I : World -> Prop) : Prop :=
  forall w w', refs w' = refs w -> I w -> I w'.

(** The invariant that asks nothing. *)
Definition anywhere (w : World) : Prop := True.



(** Some session is selected. *)
Definition selected (w : World) : Prop :=
  truthy (currentSessionId (refs w)) = true.

(** [c] is a theme class. *)
Definition is_theme_class (c : string) : bool := startsWith "theme-" c.

(** What the block [reconcile] leaves in [messages.value], given what was
    there. *)
Definition reconciled (data old : value) : value :=
  if isArray data then data
  else if truthy data then
    match get_prop data "messages" with
    | Normal m => if truthy m then m else old
    | Throw _ => old
    end
  else old.

(** The world a session-list refresh leaves when it starts in [w] with a
    session selected and its request is answered by [o]. *)
Definition refreshed_list (o : completion value) (w : World) : World :=
  match o with
  | Normal data =>
      {| refs := put_sessions (array_or_empty data) (put_error "" (refs w));
         clock := clock w;
         timers := timers w;
         requests := requests w ++
                       [mkRequest (apiBase (refs w)) "/sessions" "GET" None] |}
  | Throw e =>
      {| refs := put_error ("加载会话列表失败：" ++ message e) (refs w);
         clock := clock w;
         timers := timers w ++ [(clock w + 5000, ClearError)];
         requests := requests w ++
                       [mkRequest (apiBase (refs w)) "/sessions" "GET" None] |}
  end.

(** ** A concrete host and scripted networks, for running the model *)

Module Demo.

Definition is_unreserved (c : ascii) : bool :=
  let n := N_of_ascii c in
  ((65 <=? n) && (n <=? 90) || (97 <=? n) && (n <=? 122)
   || (48 <=? n) && (n <=? 57))%N
  || existsb (Ascii.eqb c) (list_ascii_of_string "-_.!~*'()").

Definition hex_digit (n : N) : ascii :=
  ascii_of_N (if (n <? 10)%N then 48 + n else 55 + n)%N.

(** UTF-8 bytes outside the unreserved set become [%XX]. *)
Fixpoint percent_encode (s : string) : string :=
  match s with
  | EmptyString => EmptyString
  | String c rest =>
      if is_unreserved c then String c (percent_encode rest)
      else
        let n := N_of_ascii c in
        String "%" (String (hex_digit (n / 16)) (String (hex_digit (n mod 16))
               (percent_encode rest)))
  end.

(** ToString. *)
Fixpoint to_string (v : value) : string :=
  match v with
  | VUndef => "undefined"
  | VNull => "null"
  | VBool b => if b then "true" else "false"
  | VNum n => string_of_Z n
  | VStr s => s
  | VArr items =>
      (fix join (l : list value) : string :=
         match l with
         | [] => EmptyString
         | x :: rest =>
             let sx := match x with
                       | VUndef | VNull => EmptyString
                       | _ => to_string x
                       end in
             match rest with
             | [] => sx
             | _ => sx ++ "," ++ join rest
             end
         end) items
  | VObj _ => "[object Object]"
  end.

Definition is_space (c : ascii) : bool :=
  let n := N_of_ascii c in ((9 <=? n) && (n <=? 13) || (n =? 32))%N.

Fixpoint trim_start (s : string) : string :=
  match s with
  | String c rest => if is_space c then trim_start rest else s
  | EmptyString => EmptyString
  end.

Fixpoint trim_end (s : string) : string :=
  match s with
  | EmptyString => EmptyString
  | String c rest =>
      match trim_end rest with
      | EmptyString => if is_space c then EmptyString else String c EmptyString
      | r => String c r
      end
  end.

Fixpoint zeros (n : nat) : string :=
  match n with
  | O => EmptyString
  | S k => String "0" (zeros k)
  end.

Definition pad (width : nat) (s : string) : string :=
  zeros (width - String.length s) ++ s.

Definition digits (width : nat) (n : Z) : string := pad width (string_of_Z n).

(** The proleptic Gregorian date of a day count from 1970-01-01. *)
Definition civil_from_days (days : Z) : Z * Z * Z :=
  let z := days + 719468 in
  let era := z / 146097 in
  let doe := z - era * 146097 in
  let yoe := (doe - doe / 1460 + doe / 36524 - doe / 146096) / 365 in
  let doy := doe - (365 * yoe + yoe / 4 - yoe / 100) in
  let mp := (5 * doy + 2) / 153 in
  let d := doy - (153 * mp + 2) / 5 + 1 in
  let m := if mp <? 10 then mp + 3 else mp - 9 in
  let y := yoe + era * 400 + (if m <=? 2 then 1 else 0) in
  (y, m, d).

Definition iso_of_epoch_ms (t : Z) : string :=
  let '(y, m, d) := civil_from_days (t / 86400000) in
  let r := t mod 86400000 in
  digits 4 y ++ "-" ++ digits 2 m ++ "-" ++ digits 2 d ++ "T"
    ++ digits 2 (r / 3600000) ++ ":" ++ digits 2 (r / 60000 mod 60) ++ ":"
    ++ digits 2 (r / 1000 mod 60) ++ "." ++ digits 3 (r mod 1000) ++ "Z".

(** A host for text in ASCII and years 0-9999. *)
#[export] Instance host : Host := {
  encodeURIComponent v := Normal (percent_encode (to_string v));
  trim s := trim_end (trim_start s);
  toISOString := iso_of_epoch_ms
}.

Definition unreachable : FetchOutcome :=
  Rejected (MkError "Failed to fetch").

(** The service answers the calls of a run with [replies], in order, and
    cannot be reached afterwards. *)
Definition script (replies : list FetchOutcome) : nat -> FetchOutcome :=
  fun k => nth k replies unreachable.

Definition dquote : string := String (ascii_of_nat 34) EmptyString.

(** The JSON text of a value, for strings that need no escaping. *)
Fixpoint stringify (v : value) : string :=
  match v with
  | VUndef | VNull => "null"
  | VBool b => if b then "true" else "false"
  | VNum n => string_of_Z n
  | VStr s => dquote ++ s ++ dquote
  | VArr items =>
      "[" ++
      (fix join (l : list value) : string :=
         match l with
         | [] => EmptyString
         | x :: rest =>
             stringify x ++
             match rest with
             | [] => EmptyString
             | _ => "," ++ join rest
             end
         end) items ++ "]"
  | VObj props =>
      "{" ++
      (fix join (l : list (string * value)) : string :=
         match l with
         | [] => EmptyString
         | (k, x) :: rest =>
             dquote ++ k ++ dquote ++ ":" ++ stringify x ++
             match rest with
             | [] => EmptyString
             | _ => "," ++ join rest
             end
         end) props ++ "}"
  end.

(** A 200 response whose body is the JSON text of [v]. *)
Definition json_reply (v : value) : FetchOutcome :=
  Responded {| status := 200; statusText := "OK";
               contentType := Some "application/json";
               json := Normal v; text := Normal (stringify v) |}.

(** A response with the given status line and the JSON body [v]. *)
Definition status_reply (code : Z) (reason : string) (v : value)
  : FetchOutcome :=
  Responded {| status := code; statusText := reason;
               contentType := Some "application/json";
               json := Normal v; text := Normal (stringify v) |}.

Definition session (id : string) : value := VObj [("id", VStr id)].

Definition msg (role content : string) : value :=
  VObj [("role", VStr role); ("content", VStr content)].

End Demo.

(** * Properties *)

Section Properties.

Context {host : Host}.
Variable network : nat -> FetchOutcome.

Lemma apiFetch_run apiBase path method payload w :
  apiFetch network apiBase path method payload w =
  (answer (network (length (requests w))),
   sent (mkRequest apiBase path method payload) w).
Proof.
  unfold apiFetch, bind, fetch, settle, answer, sent, mkRequest.
  destruct (network (length (requests w))); reflexivity.
Qed.

(** ** URLs *)

Lemma strip_trailing_slash_app_slash (b : string) :
  strip_trailing_slash (b ++ "/") = b.
Proof.
  induction b as [|c b IH]; [reflexivity|].
  change (String c b ++ "/")%string with (String c (b ++ "/")).
  cbn [strip_trailing_slash].
  destruct b as [|c' b'].
  - reflexivity.
  - change (String c' b' ++ "/")%string with (String c' (b' ++ "/")) in *.
    rewrite IH. reflexivity.
Qed.

Lemma strip_trailing_slash_no_slash (b : string) :
  ends_with_slash b = false -> strip_trailing_slash b = b.
Proof.
  induction b as [|c b IH]; [reflexivity|].
  cbn [ends_with_slash strip_trailing_slash].
  destruct b as [|c' b'].
  - intros ->. reflexivity.
  - intros H. rewrite (IH H). reflexivity.
Qed.

(** ** Running the gateway *)

Lemma apiFetch_op apiBase path method payload :
  gateway_op (apiFetch network apiBase path method payload).
Proof.
  intros w w' E. unfold outcome, exec. rewrite !apiFetch_run.
  unfold sent, set_requests. cbn. rewrite E. reflexivity.
Qed.

Lemma with_sid_op sessionId (k : string -> M value) :
  (forall sid, gateway_op (k sid)) ->
  gateway_op (sid <- settle (encodeURIComponent sessionId) ;; k sid).
Proof.
  intros Hk w w' E. unfold outcome, exec, bind, settle.
  destruct (encodeURIComponent sessionId) as [sid|e].
  - apply Hk, E.
  - cbn. unfold set_requests. rewrite <- E. destruct w'; reflexivity.
Qed.

Lemma loadSessions_op b : gateway_op (loadSessions network b).
Proof. apply apiFetch_op. Qed.

Lemma createSession_op b : gateway_op (createSession network b).
Proof. apply apiFetch_op. Qed.

Lemma getMessages_op b id : gateway_op (getMessages network b id).
Proof. apply with_sid_op; intros; apply apiFetch_op. Qed.

Lemma sendMessage_op b id t : gateway_op (sendMessage network b id t).
Proof. apply with_sid_op; intros; apply apiFetch_op. Qed.

Lemma rollback_op b id i : gateway_op (rollback network b id i).
Proof. apply with_sid_op; intros; apply apiFetch_op. Qed.

Lemma deleteMessage_op b id i : gateway_op (deleteMessage network b id i).
Proof. apply with_sid_op; intros; apply apiFetch_op. Qed.

Lemma deleteSession_op b id : gateway_op (deleteSession network b id).
Proof. apply with_sid_op; intros; apply apiFetch_op. Qed.

Create HintDb gateway.
#[local] Hint Resolve loadSessions_op createSession_op getMessages_op
  sendMessage_op rollback_op deleteMessage_op deleteSession_op : gateway.

#[local] Arguments loadSessions : simpl never.
#[local] Arguments createSession : simpl never.
#[local] Arguments getMessages : simpl never.
#[local] Arguments sendMessage : simpl never.
#[local] Arguments rollback : simpl never.
#[local] Arguments deleteMessage : simpl never.
#[local] Arguments deleteSession : simpl never.

(** Turn [H : outcome g w0 = c] into the behaviour of [g] in every world
    that has the request log of [w0]. *)
Ltac known_outcome H :=
  match type of H with
  | outcome ?g ?w0 = ?c =>
      let Hg := fresh "Hg" in
      let R := fresh "R" in
      assert (Hg : gateway_op g) by auto with gateway;
      specialize (Hg w0); rewrite H in Hg;
      generalize dependent (requests (exec g w0)); intros R Hg;
      cbn [requests] in Hg
  end.

(** Split on the outcome of the gateway call [g W] in the goal. *)
Ltac split_outcome g W :=
  let Hg := fresh "Hg" in
  let o := fresh "o" in
  let R := fresh "R" in
  assert (Hg : gateway_op g) by auto with gateway;
  rewrite (Hg W W eq_refl); clear Hg;
  generalize (requests (exec g W)); intros R;
  destruct (outcome g W) as [o|o].

(** Expose the next command of a controller function. *)
Ltac mstep := unfold try_finally, try_catch, bind; cbn.

(** *** Failure of the first gateway call of each transition *)

Lemma loadSessionsList_fail w e :
  outcome (loadSessions network (apiBase (refs w))) w = Throw e ->
  outcome (loadSessionsList network) w = Normal tt
  /\ refs (exec (loadSessionsList network) w) =
     put_error ("加载会话列表失败：" ++ message e) (refs w)
  /\ timers (exec (loadSessionsList network) w) =
     (timers w ++ [(clock w + 5000, ClearError)])%list.
Proof.
  intros Hfail. destruct w as [[b ss cur m nm ld er th] ck tm rq].
  cbn [refs apiBase] in Hfail. known_outcome Hfail.
  unfold outcome, exec, loadSessionsList. mstep.
  rewrite Hg by reflexivity. cbn. auto.
Qed.

Lemma loadMessagesList_fail w e :
  truthy (currentSessionId (refs w)) = true ->
  outcome (getMessages network (apiBase (refs w)) (currentSessionId (refs w))) w
    = Throw e ->
  outcome (loadMessagesList network) w = Normal tt
  /\ refs (exec (loadMessagesList network) w) =
     put_loading false (put_error ("加载消息失败：" ++ message e) (refs w))
  /\ timers (exec (loadMessagesList network) w) =
     (timers w ++ [(clock w + 5000, ClearError)])%list.
Proof.
  intros Hcur Hfail. destruct w as [[b ss cur m nm ld er th] ck tm rq].
  cbn [refs apiBase currentSessionId] in *. known_outcome Hfail.
  unfold outcome, exec, loadMessagesList. cbn. rewrite Hcur. mstep.
  rewrite Hg by reflexivity. cbn. auto.
Qed.

Lemma sendMsg_fail w ms e :
  truthy (currentSessionId (refs w)) = true ->
  trim (newMessage (refs w)) <> "" ->
  messages (refs w) = VArr ms ->
  outcome (sendMessage network (apiBase (refs w)) (currentSessionId (refs w))
                       (trim (newMessage (refs w)))) w = Throw e ->
  outcome (sendMsg network) w = Normal tt
  /\ refs (exec (sendMsg network) w) =
     put_loading false
       (put_error ("发送消息失败：" ++ message e) (put_newMessage "" (refs w)))
  /\ timers (exec (sendMsg network) w) =
     (timers w ++ [(clock w + 5000, ClearError)])%list.
Proof.
  intros Hcur Htxt Hms Hfail.
  destruct w as [[b ss cur m nm ld er th] ck tm rq].
  cbn [refs apiBase currentSessionId newMessage messages] in *. subst m.
  known_outcome Hfail. apply String.eqb_neq in Htxt.
  unfold outcome, exec, sendMsg. cbn. rewrite Hcur. cbn.
  rewrite Hcur, Htxt. cbn. mstep.
  rewrite Hg by reflexivity. cbn. rewrite removelast_last. auto.
Qed.

Lemma selectSession_fail w id e :
  id <> "" ->
  strict_eq_str id (currentSessionId (refs w)) = false ->
  outcome (getMessages network (apiBase (refs w)) (VStr id)) w = Throw e ->
  outcome (selectSession network id) w = Normal tt
  /\ refs (exec (selectSession network id) w) =
     put_loading false
       (put_error ("加载消息失败：" ++ message e)
          (put_currentSessionId (VStr id) (refs w)))
  /\ timers (exec (selectSession network id) w) =
     (timers w ++ [(clock w + 5000, ClearError)])%list.
Proof.
  intros Hid Hneq Hfail. destruct w as [[b ss cur m nm ld er th] ck tm rq].
  cbn [refs apiBase currentSessionId] in *. known_outcome Hfail.
  apply String.eqb_neq in Hid.
  unfold outcome, exec, selectSession. cbn. rewrite Hid, Hneq. cbn.
  unfold loadMessagesList. cbn. rewrite Hid. mstep.
  rewrite Hg by reflexivity. cbn. auto.
Qed.

Lemma createNewSession_fail w e :
  outcome (createSession network (apiBase (refs w))) w = Throw e ->
  outcome (createNewSession network) w = Normal tt
  /\ refs (exec (createNewSession network) w) =
     put_loading false (put_error ("新建会话失败：" ++ message e) (refs w))
  /\ timers (exec (createNewSession network) w) =
     (timers w ++ [(clock w + 5000, ClearError)])%list.
Proof.
  intros Hfail. destruct w as [[b ss cur m nm ld er th] ck tm rq].
  cbn [refs apiBase] in Hfail. known_outcome Hfail.
  unfold outcome, exec, createNewSession. mstep.
  rewrite Hg by reflexivity. cbn. auto.
Qed.

Lemma rollbackTo_fail w index e :
  truthy (currentSessionId (refs w)) = true ->
  outcome (rollback network (apiBase (refs w)) (currentSessionId (refs w))
                    index) w = Throw e ->
  outcome (rollbackTo network index) w = Normal tt
  /\ refs (exec (rollbackTo network index) w) =
     put_loading false (put_error ("回滚失败：" ++ message e) (refs w))
  /\ timers (exec (rollbackTo network index) w) =
     (timers w ++ [(clock w + 5000, ClearError)])%list.
Proof.
  intros Hcur Hfail. destruct w as [[b ss cur m nm ld er th] ck tm rq].
  cbn [refs apiBase currentSessionId] in *. known_outcome Hfail.
  unfold outcome, exec, rollbackTo. cbn. rewrite Hcur. mstep.
  rewrite Hg by reflexivity. cbn. auto.
Qed.

Lemma deleteMsg_fail w index e :
  truthy (currentSessionId (refs w)) = true ->
  outcome (deleteMessage network (apiBase (refs w))
                         (currentSessionId (refs w)) index) w = Throw e ->
  outcome (deleteMsg network index true) w = Normal tt
  /\ refs (exec (deleteMsg network index true) w) =
     put_loading false (put_error ("删除消息失败：" ++ message e) (refs w))
  /\ timers (exec (deleteMsg network index true) w) =
     (timers w ++ [(clock w + 5000, ClearError)])%list.
Proof.
  intros Hcur Hfail. destruct w as [[b ss cur m nm ld er th] ck tm rq].
  cbn [refs apiBase currentSessionId] in *. known_outcome Hfail.
  unfold outcome, exec, deleteMsg. cbn. rewrite Hcur. mstep.
  rewrite Hg by reflexivity. cbn. auto.
Qed.

Lemma deleteSess_fail w sessionId e :
  outcome (deleteSession network (apiBase (refs w)) (VStr sessionId)) w
    = Throw e ->
  outcome (deleteSess network sessionId true) w = Normal tt
  /\ refs (exec (deleteSess network sessionId true) w) =
     put_loading false (put_error ("删除会话失败：" ++ message e) (refs w))
  /\ timers (exec (deleteSess network sessionId true) w) =
     (timers w ++ [(clock w + 5000, ClearError)])%list.
Proof.
  intros Hfail. destruct w as [[b ss cur m nm ld er th] ck tm rq].
  cbn [refs apiBase] in Hfail. known_outcome Hfail.
  unfold outcome, exec, deleteSess. mstep.
  rewrite Hg by reflexivity. cbn. auto.
Qed.

(** *** What the two refresh operations can and cannot touch *)

Lemma loadMessagesList_total w :
  outcome (loadMessagesList network) w = Normal tt
  /\ messages_refreshed w (exec (loadMessagesList network) w).
Proof.
  destruct w as [[b ss cur m nm ld er th] ck tm rq].
  unfold outcome, exec, loadMessagesList, messages_refreshed. cbn.
  destruct (truthy cur); cbn; [|tauto]. mstep.
  match goal with |- context [getMessages network ?b ?id ?W] =>
    split_outcome (getMessages network b id) W end; cbn; tauto.
Qed.

(** With a session selected, a session-list refresh leaves the pointer,
    the messages and the busy flag alone, and never throws. *)
Lemma loadSessionsList_selected w :
  truthy (currentSessionId (refs w)) = true ->
  outcome (loadSessionsList network) w = Normal tt
  /\ currentSessionId (refs (exec (loadSessionsList network) w)) =
     currentSessionId (refs w)
  /\ messages (refs (exec (loadSessionsList network) w)) = messages (refs w)
  /\ loading (refs (exec (loadSessionsList network) w)) = loading (refs w)
  /\ apiBase (refs (exec (loadSessionsList network) w)) = apiBase (refs w)
  /\ newMessage (refs (exec (loadSessionsList network) w)) =
     newMessage (refs w).
Proof.
  intros Hcur. destruct w as [[b ss cur m nm ld er th] ck tm rq].
  cbn [refs currentSessionId] in Hcur.
  unfold outcome, exec, loadSessionsList. mstep.
  match goal with |- context [loadSessions network ?b ?W] =>
    split_outcome (loadSessions network b) W end; cbn.
  - rewrite Hcur, andb_false_r. cbn. tauto.
  - tauto.
Qed.

(** *** Successful gateway calls *)

#[local] Arguments loadMessagesList : simpl never.
#[local] Arguments loadSessionsList : simpl never.

Lemma length_snoc {A} (l : list A) (x : A) :
  length (l ++ [x])%list = S (length l).
Proof. rewrite length_app. cbn. lia. Qed.

Lemma with_sid_run sessionId sid (k : string -> M value) w :
  encodeURIComponent sessionId = Normal sid ->
  (sid' <- settle (encodeURIComponent sessionId) ;; k sid') w = k sid w.
Proof. intros E. unfold bind, settle. rewrite E. reflexivity. Qed.

Lemma getMessages_run b id sid w :
  encodeURIComponent id = Normal sid ->
  getMessages network b id w =
  (answer (network (length (requests w))),
   sent (mkRequest b ("/sessions/" ++ sid ++ "/messages") "GET" None) w).
Proof.
  intros E. unfold getMessages. rewrite (with_sid_run _ _ _ _ E).
  apply apiFetch_run.
Qed.

Lemma deleteSession_run b id sid w :
  encodeURIComponent id = Normal sid ->
  deleteSession network b id w =
  (answer (network (length (requests w))),
   sent (mkRequest b ("/sessions/" ++ sid) "DELETE" None) w).
Proof.
  intros E. unfold deleteSession. rewrite (with_sid_run _ _ _ _ E).
  apply apiFetch_run.
Qed.

Lemma loadSessions_run b w :
  loadSessions network b w =
  (answer (network (length (requests w))),
   sent (mkRequest b "/sessions" "GET" None) w).
Proof. apply apiFetch_run. Qed.

Lemma loadMessagesList_ok w sid data :
  truthy (currentSessionId (refs w)) = true ->
  encodeURIComponent (currentSessionId (refs w)) = Normal sid ->
  answer (network (length (requests w))) = Normal data ->
  loadMessagesList network w =
  (Normal tt,
   {| refs := put_loading false
                (put_messages (VArr (array_or_empty data))
                   (put_error "" (refs w)));
      clock := clock w;
      timers := timers w;
      requests := requests w ++
        [mkRequest (apiBase (refs w)) ("/sessions/" ++ sid ++ "/messages")
                   "GET" None] |}).
Proof.
  intros Hcur Henc Hnet. destruct w as [[b ss cur m nm ld er th] ck tm rq].
  cbn [refs apiBase currentSessionId requests] in *.
  unfold loadMessagesList. cbn. rewrite Hcur. mstep.
  erewrite getMessages_run by eassumption. cbn. rewrite Hnet. cbn.
  destruct data; reflexivity.
Qed.


(** A successful refresh with no session selected and a non-empty list:
    the first session is selected and its messages are fetched. *)
Lemma loadSessionsList_ok_autoselect w first rest id sid data :
  truthy (currentSessionId (refs w)) = false ->
  answer (network (length (requests w))) = Normal (VArr (first :: rest)) ->
  get_prop first "id" = Normal id ->
  truthy id = true ->
  encodeURIComponent id = Normal sid ->
  answer (network (S (length (requests w)))) = Normal data ->
  loadSessionsList network w =
  (Normal tt,
   {| refs := put_loading false
                (put_messages (VArr (array_or_empty data))
                   (put_currentSessionId id
                      (put_sessions (first :: rest)
                         (put_error "" (refs w)))));
      clock := clock w;
      timers := timers w;
      requests := requests w ++
        [mkRequest (apiBase (refs w)) "/sessions" "GET" None;
         mkRequest (apiBase (refs w)) ("/sessions/" ++ sid ++ "/messages")
                   "GET" None] |}).
Proof.
  intros Hcur Hnet Hid Htr Henc Hnet2.
  destruct w as [[b ss cur m nm ld er th] ck tm rq].
  cbn [refs apiBase currentSessionId requests] in *.
  unfold loadSessionsList. mstep.
  rewrite loadSessions_run. cbn. rewrite Hnet. cbn.
  rewrite Hcur. cbn. rewrite Hid. cbn.
  erewrite loadMessagesList_ok; cbn; eauto.
  - rewrite <- app_assoc. reflexivity.
  - rewrite length_snoc. exact Hnet2.
Qed.

(** ** The gateway *)


Lemma request_url_app_slash b p :
  request_url (b ++ "/") p = b ++ p.
Proof. unfold request_url. rewrite strip_trailing_slash_app_slash. reflexivity. Qed.

Lemma request_url_no_slash b p :
  ends_with_slash b = false -> request_url b p = b ++ p.
Proof.
  intros H. unfold request_url. rewrite strip_trailing_slash_no_slash by exact H.
  reflexivity.
Qed.

Lemma apiFetch_app_slash b path method payload :
  ends_with_slash b = false ->
  apiFetch network (b ++ "/") path method payload =
  apiFetch network b path method payload.
Proof.
  intros H. unfold apiFetch.
  rewrite request_url_app_slash, request_url_no_slash by exact H.
  reflexivity.
Qed.

(** C9. A base URL written with one trailing slash and the same base written
    without it give the same request URL for every path, namely the base
    without the slash followed by the path (one final slash is stripped, and
    no more than one), and each of the seven gateway operations behaves
    identically (same requests logged, same result) for the two spellings. *)
Theorem base_url_trailing_slash_irrelevant b :
  ends_with_slash b = false ->
  (forall p, request_url (b ++ "/") p = request_url b p
             /\ request_url b p = b ++ p
             /\ request_url ((b ++ "/") ++ "/") p = (b ++ "/") ++ p)
  /\ (forall w, loadSessions network (b ++ "/") w = loadSessions network b w)
  /\ (forall w, createSession network (b ++ "/") w = createSession network b w)
  /\ (forall id w,
        getMessages network (b ++ "/") id w = getMessages network b id w)
  /\ (forall id t w,
        sendMessage network (b ++ "/") id t w = sendMessage network b id t w)
  /\ (forall id i w,
        rollback network (b ++ "/") id i w = rollback network b id i w)
  /\ (forall id i w,
        deleteMessage network (b ++ "/") id i w =
        deleteMessage network b id i w)
  /\ (forall id w,
        deleteSession network (b ++ "/") id w = deleteSession network b id w).
Proof.
  intros H.
  assert (Hsid : forall id path method payload w,
    (sid <- settle (encodeURIComponent id) ;;
     apiFetch network (b ++ "/") (path sid) method payload) w =
    (sid <- settle (encodeURIComponent id) ;;
     apiFetch network b (path sid) method payload) w).
  { intros. unfold bind, settle.
    destruct (encodeURIComponent id); [|reflexivity].
    rewrite apiFetch_app_slash by exact H. reflexivity. }
  split; [|split; [|split; [|split; [|split; [|split; [|split]]]]]].
  - intros p. rewrite !request_url_app_slash, request_url_no_slash by exact H.
    auto.
  - intros w. unfold loadSessions. rewrite apiFetch_app_slash by exact H.
    reflexivity.
  - intros w. unfold createSession. rewrite apiFetch_app_slash by exact H.
    reflexivity.
  - intros id w. apply (Hsid id (fun sid => "/sessions/" ++ sid ++ "/messages")).
  - intros id t w. apply (Hsid id (fun sid => "/sessions/" ++ sid ++ "/messages")).
  - intros id i w. apply (Hsid id (fun sid => "/sessions/" ++ sid ++ "/rollback")).
  - intros id i w.
    apply (Hsid id (fun sid => "/sessions/" ++ sid ++ "/messages/"
                                 ++ string_of_Z i)).
  - intros id w. apply (Hsid id (fun sid => "/sessions/" ++ sid)).
Qed.

(** ** Send *)

(** C1. With a session selected, a non-empty trimmed input and an array of
    messages, if the gateway's append call fails then [sendMsg] ends
    normally with the message sequence exactly as it was before: the
    optimistic message pushed at the start has been popped again. The input
    buffer is cleared, the error slot holds the failure message, the busy
    flag is back to false, and every other ref has its former value; no
    other timer or clock change happens than the expiry of that message. *)
Theorem sendMsg_failure_restores_messages w ms e :
  truthy (currentSessionId (refs w)) = true ->
  trim (newMessage (refs w)) <> "" ->
  messages (refs w) = VArr ms ->
  outcome (sendMessage network (apiBase (refs w)) (currentSessionId (refs w))
                       (trim (newMessage (refs w)))) w = Throw e ->
  let w' := exec (sendMsg network) w in
  outcome (sendMsg network) w = Normal tt
  /\ messages (refs w') = VArr ms
  /\ refs w' =
     put_loading false
       (put_error ("发送消息失败：" ++ message e) (put_newMessage "" (refs w)))
  /\ (loading (refs w) = false ->
      refs w' =
      put_error ("发送消息失败：" ++ message e) (put_newMessage "" (refs w))).
Proof.
  intros Hcur Htxt Hms Hfail w'. subst w'.
  destruct (sendMsg_fail w ms e Hcur Htxt Hms Hfail) as (Hout & Hrefs & _).
  repeat split.
  - exact Hout.
  - rewrite Hrefs. exact Hms.
  - exact Hrefs.
  - intros Hld. rewrite Hrefs. destruct w as [[b ss cur m nm ld er th] ck tm rq].
    cbn in *. subst ld. reflexivity.
Qed.

(** C4, as the code has it. With no session selected [sendMsg] makes no
    gateway call and leaves the messages alone, but it does surface an
    error: the slot receives the text asking to select or create a session,
    with its five-second timer. With a session selected and an input that
    trims to the empty string, [sendMsg] changes nothing at all. *)
Theorem sendMsg_validation_skips w :
  (truthy (currentSessionId (refs w)) = false ->
   sendMsg network w =
   (Normal tt,
    {| refs := put_error "请先选择或创建会话" (refs w);
       clock := clock w;
       timers := timers w ++ [(clock w + 5000, ClearError)];
       requests := requests w |}))
  /\ (truthy (currentSessionId (refs w)) = true ->
      trim (newMessage (refs w)) = "" ->
      sendMsg network w = (Normal tt, w)).
Proof.
  destruct w as [[b ss cur m nm ld er th] ck tm rq]. cbn [refs currentSessionId newMessage].
  split.
  - intros Hcur. unfold sendMsg. cbn. rewrite Hcur. reflexivity.
  - intros Hcur Htxt. unfold sendMsg. cbn. rewrite Hcur. cbn.
    rewrite Htxt. reflexivity.
Qed.

(** ** Failure of a gateway call *)

(** C2, as the code has it. When the first gateway call of a transition
    fails, the session list and the message sequence end at their
    pre-transition values, and so does the selected-session pointer for every
    transition but one: [selectSession] has already stored the requested
    identifier, and keeps it, next to the messages of the previous session. *)
Theorem first_call_failure_keeps_data w e :
  (outcome (loadSessions network (apiBase (refs w))) w = Throw e ->
   observable (refs (exec (loadSessionsList network) w)) = observable (refs w))
  /\ (forall id,
        id <> "" ->
        strict_eq_str id (currentSessionId (refs w)) = false ->
        outcome (getMessages network (apiBase (refs w)) (VStr id)) w = Throw e ->
        observable (refs (exec (selectSession network id) w)) =
        (sessions (refs w), VStr id, messages (refs w)))
  /\ (outcome (createSession network (apiBase (refs w))) w = Throw e ->
      observable (refs (exec (createNewSession network) w)) =
      observable (refs w))
  /\ (truthy (currentSessionId (refs w)) = true ->
      outcome (getMessages network (apiBase (refs w))
                           (currentSessionId (refs w))) w = Throw e ->
      observable (refs (exec (loadMessagesList network) w)) =
      observable (refs w))
  /\ (forall ms,
        truthy (currentSessionId (refs w)) = true ->
        trim (newMessage (refs w)) <> "" ->
        messages (refs w) = VArr ms ->
        outcome (sendMessage network (apiBase (refs w))
                             (currentSessionId (refs w))
                             (trim (newMessage (refs w)))) w = Throw e ->
        observable (refs (exec (sendMsg network) w)) = observable (refs w))
  /\ (forall index,
        truthy (currentSessionId (refs w)) = true ->
        outcome (rollback network (apiBase (refs w))
                          (currentSessionId (refs w)) index) w = Throw e ->
        observable (refs (exec (rollbackTo network index) w)) =
        observable (refs w))
  /\ (forall index,
        truthy (currentSessionId (refs w)) = true ->
        outcome (deleteMessage network (apiBase (refs w))
                               (currentSessionId (refs w)) index) w = Throw e ->
        observable (refs (exec (deleteMsg network index true) w)) =
        observable (refs w))
  /\ (forall sessionId,
        outcome (deleteSession network (apiBase (refs w)) (VStr sessionId)) w
          = Throw e ->
        observable (refs (exec (deleteSess network sessionId true) w)) =
        observable (refs w)).
Proof.
  split; [|split; [|split; [|split; [|split; [|split; [|split]]]]]].
  - intros H. destruct (loadSessionsList_fail w e H) as (_ & -> & _).
    reflexivity.
  - intros id H1 H2 H3.
    destruct (selectSession_fail w id e H1 H2 H3) as (_ & -> & _).
    reflexivity.
  - intros H. destruct (createNewSession_fail w e H) as (_ & -> & _).
    reflexivity.
  - intros H1 H2. destruct (loadMessagesList_fail w e H1 H2) as (_ & -> & _).
    reflexivity.
  - intros ms H1 H2 H3 H4.
    destruct (sendMsg_fail w ms e H1 H2 H3 H4) as (_ & -> & _).
    reflexivity.
  - intros index H1 H2.
    destruct (rollbackTo_fail w index e H1 H2) as (_ & -> & _). reflexivity.
  - intros index H1 H2.
    destruct (deleteMsg_fail w index e H1 H2) as (_ & -> & _). reflexivity.
  - intros sessionId H.
    destruct (deleteSess_fail w sessionId e H) as (_ & -> & _). reflexivity.
Qed.

(** ** Malformed success *)

Lemma lookup_prop_absent k props :
  existsb (fun p => (k =? fst p)%string) props = false ->
  lookup_prop k props = VUndef.
Proof.
  induction props as [|[k' v] props IH]; [reflexivity|].
  cbn. destruct (k =? k')%string; [discriminate|]. exact IH.
Qed.

Lemma reconcile_malformed data w :
  isArray data = false ->
  has_field "messages" data = false ->
  reconcile data w = (Normal tt, w).
Proof.
  intros Harr Hfield. unfold reconcile. rewrite Harr.
  destruct data as [| |[|]|n|s|l|props]; try reflexivity; try discriminate.
  - cbn. destruct (negb (n =? 0)); reflexivity.
  - cbn. destruct (negb (s =? "")%string); reflexivity.
  - unfold has_field in Hfield. cbn [isArray truthy].
    unfold bind, settle, get_prop.
    rewrite (lookup_prop_absent _ _ Hfield). reflexivity.
Qed.

#[local] Arguments reconcile : simpl never.

(** Run a session-list refresh met in the goal while a session is selected. *)
Ltac refresh_selected Hcur :=
  match goal with
  | |- context [loadSessionsList network ?W] =>
      let H := fresh "Hrefresh" in
      let c := fresh "c" in
      let W' := fresh "W" in
      pose proof (loadSessionsList_selected W Hcur) as H;
      unfold outcome, exec in H;
      destruct (loadSessionsList network W) as [c W'];
      cbn in H; destruct H as (-> & H)
  end.

(** C10. A successful gateway response that is not an array empties the
    session list in [loadSessionsList] and the message sequence in
    [loadMessagesList], and neither throws. A successful response that is
    neither an array nor an object with a [messages] field leaves the message
    sequence as it is in [rollbackTo] and [deleteMsg], and in [sendMsg] leaves
    it with the optimistic message still at its end. *)
Theorem malformed_success_is_tolerated w data :
  isArray data = false ->
  (outcome (loadSessions network (apiBase (refs w))) w = Normal data ->
   outcome (loadSessionsList network) w = Normal tt
   /\ sessions (refs (exec (loadSessionsList network) w)) = [])
  /\ (truthy (currentSessionId (refs w)) = true ->
      outcome (getMessages network (apiBase (refs w))
                           (currentSessionId (refs w))) w = Normal data ->
      outcome (loadMessagesList network) w = Normal tt
      /\ messages (refs (exec (loadMessagesList network) w)) = VArr [])
  /\ (forall ms,
        has_field "messages" data = false ->
        truthy (currentSessionId (refs w)) = true ->
        trim (newMessage (refs w)) <> "" ->
        messages (refs w) = VArr ms ->
        outcome (sendMessage network (apiBase (refs w))
                             (currentSessionId (refs w))
                             (trim (newMessage (refs w)))) w = Normal data ->
        outcome (sendMsg network) w = Normal tt
        /\ messages (refs (exec (sendMsg network) w)) =
           VArr (ms ++ [userMsg (trim (newMessage (refs w))) (clock w)]))
  /\ (forall index,
        has_field "messages" data = false ->
        truthy (currentSessionId (refs w)) = true ->
        outcome (rollback network (apiBase (refs w))
                          (currentSessionId (refs w)) index) w = Normal data ->
        outcome (rollbackTo network index) w = Normal tt
        /\ messages (refs (exec (rollbackTo network index) w)) =
           messages (refs w))
  /\ (forall index,
        has_field "messages" data = false ->
        truthy (currentSessionId (refs w)) = true ->
        outcome (deleteMessage network (apiBase (refs w))
                               (currentSessionId (refs w)) index) w
          = Normal data ->
        outcome (deleteMsg network index true) w = Normal tt
        /\ messages (refs (exec (deleteMsg network index true) w)) =
           messages (refs w)).
Proof.
  intros Harr. destruct w as [[b ss cur m nm ld er th] ck tm rq].
  cbn [refs apiBase currentSessionId newMessage messages clock].
  split; [|split; [|split; [|split]]].
  - intros Hok. known_outcome Hok.
    unfold outcome, exec, loadSessionsList. mstep.
    rewrite Hg by reflexivity. cbn.
    destruct data; try discriminate; cbn; auto.
  - intros Hcur Hok. known_outcome Hok.
    unfold outcome, exec, loadMessagesList. cbn. rewrite Hcur. mstep.
    rewrite Hg by reflexivity. cbn. rewrite Harr. cbn. auto.
  - intros ms Hfield Hcur Htxt -> Hok. known_outcome Hok.
    apply String.eqb_neq in Htxt.
    unfold outcome, exec, sendMsg. cbn. rewrite Hcur. cbn.
    rewrite Hcur, Htxt. cbn. mstep.
    rewrite Hg by reflexivity. cbn.
    rewrite (reconcile_malformed _ _ Harr Hfield). cbn.
    refresh_selected Hcur. cbn.
    destruct Hrefresh as (_ & -> & _). auto.
  - intros index Hfield Hcur Hok. known_outcome Hok.
    unfold outcome, exec, rollbackTo. cbn. rewrite Hcur. mstep.
    rewrite Hg by reflexivity. cbn.
    rewrite (reconcile_malformed _ _ Harr Hfield). cbn.
    refresh_selected Hcur. cbn.
    destruct Hrefresh as (_ & -> & _). auto.
  - intros index Hfield Hcur Hok. known_outcome Hok.
    unfold outcome, exec, deleteMsg. cbn. rewrite Hcur. mstep.
    rewrite Hg by reflexivity. cbn.
    rewrite (reconcile_malformed _ _ Harr Hfield). cbn.
    refresh_selected Hcur. cbn.
    destruct Hrefresh as (_ & -> & _). auto.
Qed.

(** ** Session-list refresh *)

(** Run a message refresh met in the goal. *)
Ltac refresh_messages :=
  match goal with
  | |- context [loadMessagesList network ?W] =>
      let H := fresh "Hmsgs" in
      let c := fresh "c" in
      let W' := fresh "W" in
      pose proof (loadMessagesList_total W) as H;
      unfold outcome, exec, messages_refreshed in H;
      destruct (loadMessagesList network W) as [c W'];
      cbn in H; destruct H as (-> & H)
  end.

(** Whatever happens after the list has arrived, the refs hold that list at
    the end, and the refresh does not throw. *)
Lemma loadSessionsList_ok_sessions w data :
  answer (network (length (requests w))) = Normal data ->
  outcome (loadSessionsList network) w = Normal tt
  /\ sessions (refs (exec (loadSessionsList network) w)) = array_or_empty data.
Proof.
  intros Hnet. destruct w as [[b ss cur m nm ld er th] ck tm rq].
  cbn [requests] in Hnet.
  unfold outcome, exec, loadSessionsList. mstep.
  rewrite loadSessions_run. cbn. rewrite Hnet. cbn.
  fold (array_or_empty data).
  destruct (array_or_empty data) as [|first rest]; [cbn; auto|].
  cbn [length Nat.eqb negb andb].
  destruct (truthy cur); cbn; [auto|].
  destruct (get_prop first "id") as [id|err]; cbn; [|auto].
  refresh_messages. cbn. destruct Hmsgs as (_ & -> & _). auto.
Qed.

(** The request [loadMessagesList] makes goes out whatever comes back. *)
Lemma loadMessagesList_requests w sid :
  truthy (currentSessionId (refs w)) = true ->
  encodeURIComponent (currentSessionId (refs w)) = Normal sid ->
  requests (exec (loadMessagesList network) w) =
  (requests w ++
     [mkRequest (apiBase (refs w)) ("/sessions/" ++ sid ++ "/messages")
                "GET" None])%list.
Proof.
  intros Hcur Henc. destruct w as [[b ss cur m nm ld er th] ck tm rq].
  cbn [refs apiBase currentSessionId requests] in *.
  unfold exec, loadMessagesList. cbn. rewrite Hcur. mstep.
  erewrite getMessages_run by eassumption. cbn.
  destruct (answer (network (length rq))); reflexivity.
Qed.

(** C6. When the list request of a session-list refresh succeeds with an
    array, that array becomes the local session list as it is. If moreover no
    session was selected and the array is non-empty, the [id] of its first
    session becomes the pointer; with a usable [id], the request for that
    session's messages follows the list request in the same transition, and
    what it returns is the local message sequence at the end. *)
Theorem loadSessionsList_replaces_and_selects_first w ss :
  answer (network (length (requests w))) = Normal (VArr ss) ->
  let w' := exec (loadSessionsList network) w in
  sessions (refs w') = ss
  /\ (forall first rest id,
        ss = first :: rest ->
        truthy (currentSessionId (refs w)) = false ->
        get_prop first "id" = Normal id ->
        currentSessionId (refs w') = id
        /\ (forall sid,
              truthy id = true ->
              encodeURIComponent id = Normal sid ->
              requests w' =
              (requests w ++
                 [mkRequest (apiBase (refs w)) "/sessions" "GET" None;
                  mkRequest (apiBase (refs w))
                            ("/sessions/" ++ sid ++ "/messages") "GET" None])%list
              /\ (forall data,
                    answer (network (S (length (requests w)))) = Normal data ->
                    messages (refs w') = VArr (array_or_empty data)))).
Proof.
  intros Hnet w'. subst w'. split.
  - apply (loadSessionsList_ok_sessions w (VArr ss) Hnet).
  - intros first rest id -> Hcur Hid. split; [|intros sid Htr Henc; split].
    + destruct w as [[b ss cur m nm ld er th] ck tm rq].
      cbn [refs currentSessionId requests] in *.
      unfold exec, loadSessionsList. mstep.
      rewrite loadSessions_run. cbn. rewrite Hnet. cbn.
      rewrite Hcur. cbn. rewrite Hid. cbn.
      refresh_messages. cbn. destruct Hmsgs as (_ & _ & -> & _). reflexivity.
    + destruct w as [[b ss cur m nm ld er th] ck tm rq].
      cbn [refs currentSessionId requests apiBase] in *.
      unfold exec, loadSessionsList. mstep.
      rewrite loadSessions_run. cbn. rewrite Hnet. cbn.
      rewrite Hcur. cbn. rewrite Hid. cbn.
      match goal with |- context [loadMessagesList network ?W] =>
        pose proof (loadMessagesList_requests W sid Htr Henc) as Hreq;
        pose proof (loadMessagesList_total W) as Htot;
        unfold exec, outcome in Hreq, Htot;
        destruct (loadMessagesList network W) as [c W'] end.
      cbn in Hreq, Htot. destruct Htot as (-> & _). cbn.
      rewrite Hreq, <- app_assoc. reflexivity.
    + intros data Hnet2. unfold exec.
      rewrite (loadSessionsList_ok_autoselect w first rest id sid data); auto.
Qed.

(** C3, as the code has it. A refresh of the session list that starts with
    no session selected establishes the invariant: on a non-empty result the
    pointer becomes the [id] of the first session (a truthy one, for the
    invariant), on an empty result the list is empty and the pointer is left
    as it was. The two other ways of setting the pointer do not look at the
    list: [selectSession] stores any non-empty identifier that differs from
    the current one, and a refresh that starts with a session selected keeps
    the pointer whatever list comes back. *)
Theorem pointer_follows_refresh_and_select w :
  (forall first rest id,
     truthy (currentSessionId (refs w)) = false ->
     answer (network (length (requests w))) = Normal (VArr (first :: rest)) ->
     get_prop first "id" = Normal id ->
     currentSessionId (refs (exec (loadSessionsList network) w)) = id
     /\ sessions (refs (exec (loadSessionsList network) w)) = first :: rest
     /\ (truthy id = true ->
         pointer_invariant (refs (exec (loadSessionsList network) w))))
  /\ (forall data,
        truthy (currentSessionId (refs w)) = false ->
        answer (network (length (requests w))) = Normal data ->
        array_or_empty data = [] ->
        currentSessionId (refs (exec (loadSessionsList network) w)) =
        currentSessionId (refs w)
        /\ sessions (refs (exec (loadSessionsList network) w)) = [])
  /\ (forall id,
        id <> "" ->
        strict_eq_str id (currentSessionId (refs w)) = false ->
        currentSessionId (refs (exec (selectSession network id) w)) = VStr id
        /\ sessions (refs (exec (selectSession network id) w)) =
           sessions (refs w))
  /\ (truthy (currentSessionId (refs w)) = true ->
      currentSessionId (refs (exec (loadSessionsList network) w)) =
      currentSessionId (refs w)).
Proof.
  split; [|split; [|split]].
  - intros first rest id Hcur Hnet Hid.
    destruct w as [[b ss cur m nm ld er th] ck tm rq].
    cbn [refs currentSessionId requests] in *.
    assert (Hptr :
      currentSessionId (refs (exec (loadSessionsList network)
        {| refs := {| apiBase := b; sessions := ss; currentSessionId := cur;
                      messages := m; newMessage := nm; loading := ld;
                      error := er; currentTheme := th |};
           clock := ck; timers := tm; requests := rq |})) = id
      /\ sessions (refs (exec (loadSessionsList network)
        {| refs := {| apiBase := b; sessions := ss; currentSessionId := cur;
                      messages := m; newMessage := nm; loading := ld;
                      error := er; currentTheme := th |};
           clock := ck; timers := tm; requests := rq |})) = first :: rest).
    { unfold exec, loadSessionsList. mstep.
      rewrite loadSessions_run. cbn. rewrite Hnet. cbn.
      rewrite Hcur. cbn. rewrite Hid. cbn.
      refresh_messages. cbn. destruct Hmsgs as (_ & -> & -> & _). auto. }
    destruct Hptr as (Hptr & Hss). split; [exact Hptr|]. split; [exact Hss|].
    intros Htr. split.
    + intros _. exists first. rewrite Hss, Hptr.
      split; [left; reflexivity|exact Hid].
    + intros Hnull. rewrite Hptr in Hnull. rewrite Hnull in Htr.
      discriminate Htr.
  - intros data Hcur Hnet Hempty.
    destruct (loadSessionsList_ok_sessions w data Hnet) as (_ & Hss).
    rewrite Hempty in Hss. split; [|exact Hss].
    destruct w as [[b ss cur m nm ld er th] ck tm rq].
    cbn [refs currentSessionId requests] in *.
    unfold exec, loadSessionsList. mstep.
    rewrite loadSessions_run. cbn. rewrite Hnet. cbn.
    fold (array_or_empty data). rewrite Hempty. reflexivity.
  - intros id Hid Hneq. destruct w as [[b ss cur m nm ld er th] ck tm rq].
    cbn [refs currentSessionId] in *. apply String.eqb_neq in Hid.
    unfold exec, selectSession. cbn. rewrite Hid, Hneq. cbn. mstep.
    refresh_messages. cbn. destruct Hmsgs as (_ & -> & -> & _). auto.
  - intros Hcur. apply (loadSessionsList_selected w Hcur).
Qed.

(** ** Deleting a session *)

Lemma strict_eq_str_refl id : strict_eq_str id (VStr id) = true.
Proof. apply String.eqb_refl. Qed.

Lemma truthy_VStr id : id <> "" -> truthy (VStr id) = true.
Proof. intros H. cbn. apply String.eqb_neq in H. rewrite H. reflexivity. Qed.



(** ** The error slot *)

Lemma fire_all_error l s :
  error (fold_left (fun s p => fire (snd p) s) l s) =
  if existsb is_clear l then "" else error s.
Proof.
  revert s. induction l as [|[t a] l IH]; intros s; [reflexivity|].
  cbn [fold_left existsb]. rewrite IH. unfold is_clear at 2. cbn [snd].
  destruct a; cbn; [destruct (existsb is_clear l)|]; reflexivity.
Qed.

Lemma advance_error dt w :
  error (refs (advance dt w)) =
  if existsb is_clear (filter (fun p => fst p <=? clock w + dt) (timers w))
  then "" else error (refs w).
Proof. unfold advance. cbn [refs]. apply fire_all_error. Qed.

Lemma due_clear_exists (l : list (Z * TimerAction)) now t :
  In (t, ClearError) l -> t <= now ->
  existsb is_clear (filter (fun p => fst p <=? now) l) = true.
Proof.
  intros Hin Hle. apply existsb_exists. exists (t, ClearError).
  split; [|reflexivity]. apply filter_In. split; [exact Hin|].
  cbn. apply Z.leb_le. exact Hle.
Qed.


(** The clearing scheduled for a message is never cancelled: it empties the
    slot when it comes due, whatever message the slot then holds. *)
Lemma pending_clearing_empties_slot w msg dt t :
  In (t, ClearError) (timers w) -> t <= clock w + dt ->
  error (refs (advance dt (exec (setError msg) w))) = "".
Proof.
  intros Hin Hdue. rewrite advance_error.
  assert (Hin' : In (t, ClearError) (timers (exec (setError msg) w))).
  { unfold exec, setError. cbn.
    destruct (negb (msg =? "")%string); cbn; [|exact Hin].
    apply in_or_app. left. exact Hin. }
  assert (Hck : clock (exec (setError msg) w) = clock w).
  { unfold exec, setError. cbn.
    destruct (negb (msg =? "")%string); reflexivity. }
  rewrite Hck. rewrite (due_clear_exists _ _ t); [reflexivity|exact Hin'|exact Hdue].
Qed.


(** * Further properties of the controller *)

(** ** Counting requests *)























Lemma on_refs_anywhere : on_refs anywhere.
Proof. intros w w' _ _. exact I. Qed.

Lemma on_refs_selected : on_refs selected.
Proof. intros w w' E H. unfold selected in *. rewrite E. exact H. Qed.


(** ** Running the mutating transitions *)

Lemma sendMessage_run b id sid t w :
  encodeURIComponent id = Normal sid ->
  sendMessage network b id t w =
  (answer (network (length (requests w))),
   sent (mkRequest b ("/sessions/" ++ sid ++ "/messages") "POST"
                   (Some (VObj [("content", VStr t)]))) w).
Proof.
  intros E. unfold sendMessage. rewrite (with_sid_run _ _ _ _ E).
  apply apiFetch_run.
Qed.

Lemma rollback_run b id sid i w :
  encodeURIComponent id = Normal sid ->
  rollback network b id i w =
  (answer (network (length (requests w))),
   sent (mkRequest b ("/sessions/" ++ sid ++ "/rollback") "POST"
                   (Some (VObj [("to_index", VNum i)]))) w).
Proof.
  intros E. unfold rollback. rewrite (with_sid_run _ _ _ _ E).
  apply apiFetch_run.
Qed.

Lemma deleteMessage_run b id sid i w :
  encodeURIComponent id = Normal sid ->
  deleteMessage network b id i w =
  (answer (network (length (requests w))),
   sent (mkRequest b ("/sessions/" ++ sid ++ "/messages/" ++ string_of_Z i)
                   "DELETE" None) w).
Proof.
  intros E. unfold deleteMessage. rewrite (with_sid_run _ _ _ _ E).
  apply apiFetch_run.
Qed.

Lemma createSession_run b w :
  createSession network b w =
  (answer (network (length (requests w))),
   sent (mkRequest b "/sessions" "POST" None) w).
Proof. apply apiFetch_run. Qed.

Lemma reconcile_run data w :
  reconcile data w =
  (Normal tt,
   with_refs (put_messages (reconciled data (messages (refs w)))) w).
Proof.
  destruct w as [[b ss cur m nm ld er th] ck tm rq].
  unfold reconcile, reconciled. cbn [refs messages].
  destruct data as [| |[|]|n|s|l|props]; try reflexivity.
  - cbn. destruct (negb (n =? 0)); reflexivity.
  - cbn. destruct (negb (s =? "")%string); reflexivity.
  - cbn [isArray truthy get_prop]. unfold bind, settle.
    destruct (truthy (lookup_prop "messages" props)); reflexivity.
Qed.

Lemma loadSessionsList_selected_run w :
  selected w ->
  loadSessionsList network w =
  (Normal tt, refreshed_list (answer (network (length (requests w)))) w).
Proof.
  unfold selected. intros Hcur.
  destruct w as [[b ss cur m nm ld er th] ck tm rq].
  cbn [refs currentSessionId requests] in *.
  unfold loadSessionsList. mstep. rewrite loadSessions_run. cbn.
  destruct (answer (network (length rq))) as [data|e]; cbn.
  - rewrite Hcur, andb_false_r. destruct data; reflexivity.
  - reflexivity.
Qed.

(** X1. A successful send: with a session selected, an input that does not
    trim to nothing and an array of messages, when the append call returns an
    array, that array replaces the local sequence (the optimistic message is
    gone), the input is cleared, the busy flag is lowered, and exactly two
    requests were made: the POST of the trimmed text and the refresh of the
    session list, whose answer decides the list and the error slot. *)
Theorem sendMsg_success_replaces_messages w ms sid data :
  selected w ->
  trim (newMessage (refs w)) <> "" ->
  messages (refs w) = VArr ms ->
  encodeURIComponent (currentSessionId (refs w)) = Normal sid ->
  answer (network (length (requests w))) = Normal (VArr data) ->
  let w' := exec (sendMsg network) w in
  outcome (sendMsg network) w = Normal tt
  /\ messages (refs w') = VArr data
  /\ newMessage (refs w') = ""
  /\ loading (refs w') = false
  /\ currentSessionId (refs w') = currentSessionId (refs w)
  /\ requests w' =
     (requests w ++
        [mkRequest (apiBase (refs w)) ("/sessions/" ++ sid ++ "/messages")
                   "POST"
                   (Some (VObj [("content", VStr (trim (newMessage (refs w))))]));
         mkRequest (apiBase (refs w)) "/sessions" "GET" None])%list
  /\ (forall list,
        answer (network (S (length (requests w)))) = Normal list ->
        sessions (refs w') = array_or_empty list /\ error (refs w') = "")
  /\ (forall e,
        answer (network (S (length (requests w)))) = Throw e ->
        sessions (refs w') = sessions (refs w)
        /\ error (refs w') = "加载会话列表失败：" ++ message e).
Proof.
  intros Hcur Htxt Hms Henc Hnet. cbv zeta. unfold selected in Hcur.
  destruct w as [[b ss cur m nm ld er th] ck tm rq].
  cbn [refs apiBase currentSessionId newMessage messages requests] in *.
  subst m. apply String.eqb_neq in Htxt.
  unfold outcome, exec, sendMsg. cbn. rewrite Hcur. cbn.
  rewrite Hcur, Htxt. cbn. unfold try_finally, try_catch, bind. cbn.
  erewrite sendMessage_run by eassumption. cbn. rewrite Hnet. cbn.
  rewrite reconcile_run. cbn.
  rewrite loadSessionsList_selected_run by exact Hcur. cbn.
  rewrite length_snoc.
  destruct (answer (network (S (length rq)))) as [list|e]; cbn;
    rewrite <- app_assoc; cbn.
  - repeat (split; [reflexivity|]).
    split; [intros list' [= <-]; auto | intros e' H; discriminate H].
  - repeat (split; [reflexivity|]).
    split; [intros list' H; discriminate H | intros e' [= <-]; auto].
Qed.

Lemma reconciled_array l old : reconciled (VArr l) old = VArr l.
Proof. reflexivity. Qed.

Lemma reconciled_wrapped data m old :
  isArray data = false -> truthy data = true ->
  get_prop data "messages" = Normal m -> truthy m = true ->
  reconciled data old = m.
Proof.
  intros H1 H2 H3 H4. unfold reconciled. rewrite H1, H2, H3, H4. reflexivity.
Qed.

(** X2. A successful rollback or delete-message, with a session selected:
    the transition ends normally with the busy flag lowered and the pointer
    untouched, after exactly two requests (the mutation, then the refresh of
    the session list). The local sequence becomes the returned array, or the
    truthy [messages] property of a returned non-array value. *)
Theorem rollback_and_delete_take_the_returned_sequence w index sid data :
  selected w ->
  encodeURIComponent (currentSessionId (refs w)) = Normal sid ->
  answer (network (length (requests w))) = Normal data ->
  (outcome (rollbackTo network index) w = Normal tt
   /\ loading (refs (exec (rollbackTo network index) w)) = false
   /\ currentSessionId (refs (exec (rollbackTo network index) w)) =
      currentSessionId (refs w)
   /\ requests (exec (rollbackTo network index) w) =
      (requests w ++
         [mkRequest (apiBase (refs w)) ("/sessions/" ++ sid ++ "/rollback")
                    "POST" (Some (VObj [("to_index", VNum index)]));
          mkRequest (apiBase (refs w)) "/sessions" "GET" None])%list
   /\ (forall l, data = VArr l ->
       messages (refs (exec (rollbackTo network index) w)) = VArr l)
   /\ (forall m,
         isArray data = false -> truthy data = true ->
         get_prop data "messages" = Normal m -> truthy m = true ->
         messages (refs (exec (rollbackTo network index) w)) = m))
  /\ (outcome (deleteMsg network index true) w = Normal tt
      /\ loading (refs (exec (deleteMsg network index true) w)) = false
      /\ currentSessionId (refs (exec (deleteMsg network index true) w)) =
         currentSessionId (refs w)
      /\ requests (exec (deleteMsg network index true) w) =
         (requests w ++
            [mkRequest (apiBase (refs w))
                       ("/sessions/" ++ sid ++ "/messages/"
                          ++ string_of_Z index) "DELETE" None;
             mkRequest (apiBase (refs w)) "/sessions" "GET" None])%list
      /\ (forall l, data = VArr l ->
          messages (refs (exec (deleteMsg network index true) w)) = VArr l)
      /\ (forall m,
            isArray data = false -> truthy data = true ->
            get_prop data "messages" = Normal m -> truthy m = true ->
            messages (refs (exec (deleteMsg network index true) w)) = m)).
Proof.
  intros Hcur Henc Hnet. unfold selected in Hcur.
  destruct w as [[b ss cur m0 nm ld er th] ck tm rq].
  cbn [refs apiBase currentSessionId newMessage messages requests] in *.
  split.
  - unfold outcome, exec, rollbackTo. cbn. rewrite Hcur. mstep.
    erewrite rollback_run by eassumption. cbn. rewrite Hnet. cbn.
    rewrite reconcile_run. cbn.
    rewrite loadSessionsList_selected_run by exact Hcur. cbn.
    rewrite length_snoc.
    destruct (answer (network (S (length rq)))) as [list|e]; cbn;
      rewrite <- app_assoc; cbn;
      (repeat (split; [reflexivity|])); (split;
        [intros l ->; reflexivity
        |intros m H1 H2 H3 H4; apply reconciled_wrapped; assumption]).
  - unfold outcome, exec, deleteMsg. cbn. rewrite Hcur. mstep.
    erewrite deleteMessage_run by eassumption. cbn. rewrite Hnet. cbn.
    rewrite reconcile_run. cbn.
    rewrite loadSessionsList_selected_run by exact Hcur. cbn.
    rewrite length_snoc.
    destruct (answer (network (S (length rq)))) as [list|e]; cbn;
      rewrite <- app_assoc; cbn;
      (repeat (split; [reflexivity|])); (split;
        [intros l ->; reflexivity
        |intros m H1 H2 H3 H4; apply reconciled_wrapped; assumption]).
Qed.

(** X3. When the local messages are not an array (a wrapped result whose
    [messages] property was no array has been stored), [sendMsg] throws at
    its [push], before its [try]: the exception leaves the function, no
    request is made, nothing is cleaned up and the busy flag stays raised. *)
Theorem sendMsg_throws_on_non_array_messages w :
  selected w ->
  trim (newMessage (refs w)) <> "" ->
  isArray (messages (refs w)) = false ->
  let w' := exec (sendMsg network) w in
  (exists e, outcome (sendMsg network) w = Throw e)
  /\ loading (refs w') = true
  /\ requests w' = requests w
  /\ messages (refs w') = messages (refs w)
  /\ newMessage (refs w') = newMessage (refs w)
  /\ error (refs w') = ""
  /\ timers w' = timers w.
Proof.
  intros Hcur Htxt Harr. cbv zeta. unfold selected in Hcur.
  destruct w as [[b ss cur m nm ld er th] ck tm rq].
  cbn [refs currentSessionId newMessage messages requests timers] in *.
  apply String.eqb_neq in Htxt.
  unfold outcome, exec, sendMsg. cbn. rewrite Hcur. cbn.
  rewrite Hcur, Htxt. cbn.
  destruct m; try discriminate; cbn; eauto 10.
Qed.

(** ** Creating a session *)

(** X4. [createNewSession] after a successful create call. With a session
    already selected it empties the local message sequence and leaves the
    pointer on that session: two requests, no fetch of messages. With no
    session selected, a non-empty refreshed list makes its first session the
    selected one and that session's messages the local sequence, in three
    requests. *)
Theorem createNewSession_clears_then_refreshes w reply :
  answer (network (length (requests w))) = Normal reply ->
  let w' := exec (createNewSession network) w in
  (selected w ->
   outcome (createNewSession network) w = Normal tt
   /\ messages (refs w') = VArr []
   /\ currentSessionId (refs w') = currentSessionId (refs w)
   /\ loading (refs w') = false
   /\ requests w' =
      (requests w ++
         [mkRequest (apiBase (refs w)) "/sessions" "POST" None;
          mkRequest (apiBase (refs w)) "/sessions" "GET" None])%list)
  /\ (forall first rest id sid data,
        truthy (currentSessionId (refs w)) = false ->
        answer (network (S (length (requests w)))) =
          Normal (VArr (first :: rest)) ->
        get_prop first "id" = Normal id ->
        truthy id = true ->
        encodeURIComponent id = Normal sid ->
        answer (network (S (S (length (requests w))))) = Normal data ->
        outcome (createNewSession network) w = Normal tt
        /\ sessions (refs w') = first :: rest
        /\ currentSessionId (refs w') = id
        /\ messages (refs w') = VArr (array_or_empty data)
        /\ loading (refs w') = false
        /\ error (refs w') = ""
        /\ requests w' =
           (requests w ++
              [mkRequest (apiBase (refs w)) "/sessions" "POST" None;
               mkRequest (apiBase (refs w)) "/sessions" "GET" None;
               mkRequest (apiBase (refs w))
                         ("/sessions/" ++ sid ++ "/messages") "GET" None])%list).
Proof.
  intros Hnet. cbv zeta.
  destruct w as [[b ss cur m nm ld er th] ck tm rq].
  cbn [refs apiBase currentSessionId requests] in *. split.
  - unfold selected. cbn [refs currentSessionId]. intros Hcur.
    unfold outcome, exec, createNewSession. mstep.
    rewrite createSession_run. cbn. rewrite Hnet. cbn.
    rewrite loadSessionsList_selected_run by exact Hcur. cbn.
    rewrite length_snoc.
    destruct (answer (network (S (length rq)))) as [list|e]; cbn;
      rewrite <- app_assoc; cbn; auto 10.
  - intros first rest id sid data Hcur H2 Hid Htr Henc H3.
    unfold outcome, exec, createNewSession. mstep.
    rewrite createSession_run. cbn. rewrite Hnet. cbn.
    erewrite (loadSessionsList_ok_autoselect _ first rest id sid data);
      [| exact Hcur
       | unfold sent, with_refs; cbn [requests]; rewrite length_snoc; exact H2
       | exact Hid | exact Htr | exact Henc
       | unfold sent, with_refs; cbn [requests]; rewrite length_snoc;
         exact H3].
    cbn. rewrite <- app_assoc. cbn. auto 10.
Qed.

(** ** Refreshing and selecting *)

(** X5. [loadMessagesList] is a no-op with no session selected. With one
    selected and an array returned, that array is the local sequence at the
    end, whatever the sequence held before; the session list and the pointer
    are untouched, the error slot is empty, the busy flag lowered, and one
    GET was made. *)
Theorem loadMessagesList_stores_what_it_fetched w :
  (truthy (currentSessionId (refs w)) = false ->
   loadMessagesList network w = (Normal tt, w))
  /\ (forall sid data,
        selected w ->
        encodeURIComponent (currentSessionId (refs w)) = Normal sid ->
        answer (network (length (requests w))) = Normal (VArr data) ->
        let w' := exec (loadMessagesList network) w in
        outcome (loadMessagesList network) w = Normal tt
        /\ messages (refs w') = VArr data
        /\ sessions (refs w') = sessions (refs w)
        /\ currentSessionId (refs w') = currentSessionId (refs w)
        /\ error (refs w') = ""
        /\ loading (refs w') = false
        /\ requests w' =
           (requests w ++
              [mkRequest (apiBase (refs w))
                         ("/sessions/" ++ sid ++ "/messages") "GET" None])%list).
Proof.
  split.
  - intros Hcur. destruct w as [[b ss cur m nm ld er th] ck tm rq].
    cbn [refs currentSessionId] in Hcur.
    unfold loadMessagesList. cbn. rewrite Hcur. reflexivity.
  - intros sid data Hcur Henc Hnet. cbv zeta. unfold outcome, exec.
    rewrite (loadMessagesList_ok w sid (VArr data) Hcur Henc Hnet).
    cbn. auto 10.
Qed.

(** X6. [selectSession] does nothing for the empty identifier and for the
    identifier already selected (no request, no refetch). For any other
    identifier whose messages the service returns, it ends with the pointer
    on that identifier, the returned messages (or none, if no array came) as
    the local sequence, the session list untouched and one GET made. *)
Theorem selectSession_switches_and_loads w id :
  (id = "" \/ currentSessionId (refs w) = VStr id ->
   selectSession network id w = (Normal tt, w))
  /\ (forall sid data,
        id <> "" ->
        strict_eq_str id (currentSessionId (refs w)) = false ->
        encodeURIComponent (VStr id) = Normal sid ->
        answer (network (length (requests w))) = Normal data ->
        selectSession network id w =
        (Normal tt,
         {| refs := put_loading false
                      (put_messages (VArr (array_or_empty data))
                         (put_error ""
                            (put_currentSessionId (VStr id) (refs w))));
            clock := clock w;
            timers := timers w;
            requests := requests w ++
              [mkRequest (apiBase (refs w))
                         ("/sessions/" ++ sid ++ "/messages") "GET" None] |})).
Proof.
  destruct w as [[b ss cur m nm ld er th] ck tm rq].
  cbn [refs apiBase currentSessionId requests clock timers]. split.
  - intros [-> | ->]; unfold selectSession; cbn; [reflexivity|].
    rewrite String.eqb_refl, orb_true_r. reflexivity.
  - intros sid data Hid Hneq Henc Hnet.
    pose proof (truthy_VStr id Hid) as Hsel. apply String.eqb_neq in Hid.
    unfold selectSession. cbn. rewrite Hid, Hneq. cbn. mstep.
    erewrite loadMessagesList_ok; [reflexivity | exact Hsel | exact Henc
                                  | exact Hnet].
Qed.

(** X7. A refreshed list whose first session cannot serve as a selection,
    met with no session selected. If the first element is [null], reading
    its [id] throws inside the [try]: the list is stored, the pointer and the
    messages stay, and the error slot reports the failure of the refresh. If
    its [id] is missing or otherwise falsy, that falsy value becomes the
    pointer and no messages are fetched. Either way one request is made. *)
Theorem loadSessionsList_unusable_first_session w first rest :
  truthy (currentSessionId (refs w)) = false ->
  answer (network (length (requests w))) = Normal (VArr (first :: rest)) ->
  let w' := exec (loadSessionsList network) w in
  (forall e,
     get_prop first "id" = Throw e ->
     outcome (loadSessionsList network) w = Normal tt
     /\ sessions (refs w') = first :: rest
     /\ currentSessionId (refs w') = currentSessionId (refs w)
     /\ messages (refs w') = messages (refs w)
     /\ error (refs w') = "加载会话列表失败：" ++ message e
     /\ requests w' =
        (requests w ++
           [mkRequest (apiBase (refs w)) "/sessions" "GET" None])%list)
  /\ (forall id,
        get_prop first "id" = Normal id ->
        truthy id = false ->
        outcome (loadSessionsList network) w = Normal tt
        /\ sessions (refs w') = first :: rest
        /\ currentSessionId (refs w') = id
        /\ messages (refs w') = messages (refs w)
        /\ error (refs w') = ""
        /\ requests w' =
           (requests w ++
              [mkRequest (apiBase (refs w)) "/sessions" "GET" None])%list).
Proof.
  intros Hcur Hnet. cbv zeta.
  destruct w as [[b ss cur m nm ld er th] ck tm rq].
  cbn [refs apiBase currentSessionId requests messages] in *. split.
  - intros e Hid. unfold outcome, exec, loadSessionsList. mstep.
    rewrite loadSessions_run. cbn. rewrite Hnet. cbn. rewrite Hcur. cbn.
    rewrite Hid. cbn. auto 10.
  - intros id Hid Hfalsy. unfold outcome, exec, loadSessionsList. mstep.
    rewrite loadSessions_run. cbn. rewrite Hnet. cbn. rewrite Hcur. cbn.
    rewrite Hid. cbn. unfold loadMessagesList. cbn. rewrite Hfalsy. cbn.
    auto 10.
Qed.

(** X8. Deleting the selected session when the delete call succeeds and the
    refresh of the list then fails: the local list is still the old one, and
    the pointer is moved to the [id] of its first session, which with a
    usable [id] is then fetched as the third request. If the deleted session
    was first in the old list, the pointer ends on the deleted session. *)
Theorem deleteSess_falls_back_on_the_stale_list
    w sessionId sid reply e first rest id :
  sessionId <> "" ->
  currentSessionId (refs w) = VStr sessionId ->
  encodeURIComponent (VStr sessionId) = Normal sid ->
  answer (network (length (requests w))) = Normal reply ->
  answer (network (S (length (requests w)))) = Throw e ->
  sessions (refs w) = first :: rest ->
  get_prop first "id" = Normal id ->
  let w' := exec (deleteSess network sessionId true) w in
  outcome (deleteSess network sessionId true) w = Normal tt
  /\ sessions (refs w') = first :: rest
  /\ currentSessionId (refs w') = id
  /\ (forall sid',
        truthy id = true ->
        encodeURIComponent id = Normal sid' ->
        requests w' =
        (requests w ++
           [mkRequest (apiBase (refs w)) ("/sessions/" ++ sid) "DELETE" None;
            mkRequest (apiBase (refs w)) "/sessions" "GET" None;
            mkRequest (apiBase (refs w))
                      ("/sessions/" ++ sid' ++ "/messages") "GET" None])%list).
Proof.
  intros Hne Hsel Henc H1 H2 Hss Hid. cbv zeta.
  destruct w as [[b ss cur m nm ld er th] ck tm rq].
  cbn [refs apiBase currentSessionId requests sessions] in *. subst cur ss.
  pose proof (truthy_VStr sessionId Hne) as Hcur.
  unfold outcome, exec, deleteSess. mstep.
  erewrite deleteSession_run by eassumption. cbn. rewrite H1. cbn.
  rewrite loadSessionsList_selected_run by exact Hcur. cbn.
  rewrite length_snoc, H2. cbn. rewrite String.eqb_refl. cbn.
  rewrite Hid. cbn.
  match goal with |- context [loadMessagesList network ?W] =>
    pose proof (loadMessagesList_total W) as Htot;
    pose proof (loadMessagesList_requests W) as Hreq;
    unfold exec, outcome, messages_refreshed in Htot, Hreq;
    destruct (loadMessagesList network W) as [c W'] end.
  cbn in Htot, Hreq. destruct Htot as (-> & _ & Hs & Hp & _). cbn.
  rewrite Hs, Hp. repeat (split; [reflexivity|]).
  intros sid' Htr Henc'. rewrite (Hreq sid' Htr Henc'), <- !app_assoc.
  reflexivity.
Qed.

(** ** What the user is shown for a bad response *)

Lemma answer_bad_status r :
  status r < 200 \/ 299 < status r ->
  answer (Responded r) =
  Throw (MkError ("API error: " ++ string_of_Z (status r) ++ " "
                    ++ statusText r)).
Proof.
  intros H. cbn. unfold read_response, ok.
  replace ((200 <=? status r) && (status r <=? 299)) with false
    by (symmetry; apply andb_false_iff; lia).
  reflexivity.
Qed.

Lemma answer_text r t :
  200 <= status r <= 299 ->
  includes "application/json" (header_or_empty (contentType r)) = false ->
  text r = Normal t ->
  answer (Responded r) = Normal (VStr t).
Proof.
  intros H Hct Ht. cbn. unfold read_response, ok.
  replace ((200 <=? status r) && (status r <=? 299)) with true
    by (symmetry; apply andb_true_iff; lia).
  cbn [negb]. rewrite Hct, Ht. reflexivity.
Qed.

(** X9. A response whose status is outside 200-299 ends a refresh with the
    status and its text in the error slot, behind the prefix of the
    transition, and with the session list, the pointer and the messages as
    they were. *)
Theorem http_error_status_is_shown w r :
  network (length (requests w)) = Responded r ->
  status r < 200 \/ 299 < status r ->
  (error (refs (exec (loadSessionsList network) w)) =
     "加载会话列表失败：" ++ "API error: " ++ string_of_Z (status r) ++ " "
       ++ statusText r
   /\ observable (refs (exec (loadSessionsList network) w)) =
      observable (refs w))
  /\ (forall sid,
        selected w ->
        encodeURIComponent (currentSessionId (refs w)) = Normal sid ->
        error (refs (exec (loadMessagesList network) w)) =
          "加载消息失败：" ++ "API error: " ++ string_of_Z (status r) ++ " "
            ++ statusText r
        /\ observable (refs (exec (loadMessagesList network) w)) =
           observable (refs w)).
Proof.
  intros Hnet Hbad. pose proof (answer_bad_status r Hbad) as Hans. split.
  - assert (Hfail : outcome (loadSessions network (apiBase (refs w))) w =
                    Throw (MkError ("API error: " ++ string_of_Z (status r)
                                      ++ " " ++ statusText r))).
    { unfold outcome. rewrite loadSessions_run, Hnet. exact Hans. }
    destruct (loadSessionsList_fail w _ Hfail) as (_ & -> & _).
    split; reflexivity.
  - intros sid Hcur Henc.
    assert (Hfail : outcome (getMessages network (apiBase (refs w))
                               (currentSessionId (refs w))) w =
                    Throw (MkError ("API error: " ++ string_of_Z (status r)
                                      ++ " " ++ statusText r))).
    { unfold outcome. erewrite getMessages_run by eassumption.
      cbn [fst]. rewrite Hnet. exact Hans. }
    destruct (loadMessagesList_fail w _ Hcur Hfail) as (_ & -> & _).
    split; reflexivity.
Qed.

(** X10. A 2xx response that does not declare JSON is taken as text, and a
    text is no array: a refresh of the session list then empties the list,
    and a refresh of the messages empties the sequence, both without
    surfacing any error. *)
Theorem non_json_success_silently_empties w r t :
  network (length (requests w)) = Responded r ->
  200 <= status r <= 299 ->
  includes "application/json" (header_or_empty (contentType r)) = false ->
  text r = Normal t ->
  (outcome (loadSessionsList network) w = Normal tt
   /\ sessions (refs (exec (loadSessionsList network) w)) = []
   /\ currentSessionId (refs (exec (loadSessionsList network) w)) =
      currentSessionId (refs w)
   /\ error (refs (exec (loadSessionsList network) w)) = "")
  /\ (forall sid,
        selected w ->
        encodeURIComponent (currentSessionId (refs w)) = Normal sid ->
        outcome (loadMessagesList network) w = Normal tt
        /\ messages (refs (exec (loadMessagesList network) w)) = VArr []
        /\ error (refs (exec (loadMessagesList network) w)) = "").
Proof.
  intros Hnet Hok Hct Ht. pose proof (answer_text r t Hok Hct Ht) as Hans.
  rewrite <- Hnet in Hans. split.
  - destruct w as [[b ss cur m nm ld er th] ck tm rq].
    cbn [refs currentSessionId requests] in *.
    unfold outcome, exec, loadSessionsList. mstep.
    rewrite loadSessions_run. cbn. rewrite Hans. cbn. auto.
  - intros sid Hcur Henc. unfold outcome, exec.
    rewrite (loadMessagesList_ok w sid (VStr t) Hcur Henc Hans). cbn. auto.
Qed.

(** ** Request budgets *)



















(** ** No failure escapes *)

Lemma completes_ret {A} (a : A) : completes (ret a).
Proof. intros w. exists a. reflexivity. Qed.

Lemma completes_get {A} (f : State -> A) : completes (get f).
Proof. intros w. eexists. reflexivity. Qed.

Lemma completes_modify f : completes (modify f).
Proof. intros w. exists tt. reflexivity. Qed.

Lemma completes_setTimeout cb delay : completes (setTimeout cb delay).
Proof. intros w. exists tt. reflexivity. Qed.

Lemma completes_bind {A B} (m : M A) (k : A -> M B) :
  completes m -> (forall x, completes (k x)) -> completes (bind m k).
Proof.
  intros Hm Hk w. destruct (Hm w) as [a Ha]. unfold outcome, bind in *.
  destruct (m w) as [c w1]. cbn in Ha. subst c. apply (Hk a w1).
Qed.

Lemma completes_if {A} (c : bool) (m1 m2 : M A) :
  completes m1 -> completes m2 -> completes (if c then m1 else m2).
Proof. destruct c; auto. Qed.

Lemma completes_when b (m : M unit) : completes m -> completes (when b m).
Proof. intros H. destruct b; [exact H|apply completes_ret]. Qed.

Lemma completes_try_catch {A} (body : M A) handler :
  (forall e, completes (handler e)) -> completes (try_catch body handler).
Proof.
  intros Hh w. unfold outcome, try_catch.
  destruct (body w) as [[a|e] w1]; [exists a; reflexivity|apply Hh].
Qed.

Lemma completes_try_finally {A} (body : M A) fin :
  completes body -> completes fin -> completes (try_finally body fin).
Proof.
  intros Hb Hf w. destruct (Hb w) as [a Ha]. unfold outcome, try_finally in *.
  destruct (body w) as [c w1]. cbn in Ha. subst c.
  destruct (Hf w1) as [u Hu]. unfold outcome in Hu.
  destruct (fin w1) as [c w2]. cbn in Hu. subst c. exists a. reflexivity.
Qed.

Lemma completes_setError msg : completes (setError msg).
Proof.
  unfold setError. apply completes_bind; [apply completes_modify|intros _].
  apply completes_when, completes_setTimeout.
Qed.

Lemma completes_reconcile data : completes (reconcile data).
Proof. intros w. exists tt. unfold outcome. rewrite reconcile_run. reflexivity. Qed.

(** A [try] with a [catch] that sets the error and a [finally] that lowers
    the busy flag cannot throw. *)
Lemma completes_guarded (body : M unit) prefix :
  completes
    (try_finally (try_catch body (fun e => setError (prefix ++ message e)))
                 (modify (put_loading false))).
Proof.
  apply completes_try_finally; [|apply completes_modify].
  apply completes_try_catch. intros e. apply completes_setError.
Qed.

Lemma completes_loadMessagesList : completes (loadMessagesList network).
Proof.
  unfold loadMessagesList. apply completes_bind; [apply completes_get|].
  intros cur. apply completes_if; [apply completes_ret|].
  apply completes_bind; [apply completes_setError|intros _].
  apply completes_bind; [apply completes_modify|intros _].
  apply completes_guarded.
Qed.

Lemma completes_loadSessionsList : completes (loadSessionsList network).
Proof.
  unfold loadSessionsList.
  apply completes_bind; [apply completes_setError|intros _].
  apply completes_try_catch. intros e. apply completes_setError.
Qed.

Lemma try_finally_lowers {A} (body : M A) w :
  loading (refs (exec (try_finally body (modify (put_loading false))) w))
  = false.
Proof.
  unfold exec, try_finally. destruct (body w) as [c w1]. reflexivity.
Qed.

(** X12. Whatever the service answers, no transition other than send ends
    by throwing: every failure inside is caught. Send does not throw either
    when the local messages are an array. *)
Theorem transitions_never_throw :
  completes (loadSessionsList network)
  /\ completes (loadMessagesList network)
  /\ (forall id, completes (selectSession network id))
  /\ completes (createNewSession network)
  /\ (forall index, completes (rollbackTo network index))
  /\ (forall index confirmed, completes (deleteMsg network index confirmed))
  /\ (forall sessionId confirmed,
        completes (deleteSess network sessionId confirmed))
  /\ (forall w ms,
        messages (refs w) = VArr ms ->
        outcome (sendMsg network) w = Normal tt).
Proof.
  split; [|split; [|split; [|split; [|split; [|split; [|split]]]]]].
  - apply completes_loadSessionsList.
  - apply completes_loadMessagesList.
  - intros id. unfold selectSession.
    apply completes_bind; [apply completes_get|intros cur].
    apply completes_if; [apply completes_ret|].
    apply completes_bind; [apply completes_modify|intros _].
    apply completes_loadMessagesList.
  - unfold createNewSession.
    apply completes_bind; [apply completes_setError|intros _].
    apply completes_bind; [apply completes_modify|intros _].
    apply completes_guarded.
  - intros index. unfold rollbackTo.
    apply completes_bind; [apply completes_get|intros cur].
    apply completes_if; [apply completes_ret|].
    apply completes_bind; [apply completes_setError|intros _].
    apply completes_bind; [apply completes_modify|intros _].
    apply completes_guarded.
  - intros index confirmed. unfold deleteMsg.
    apply completes_bind; [apply completes_get|intros cur].
    apply completes_if; [apply completes_ret|].
    apply completes_if; [apply completes_ret|].
    apply completes_bind; [apply completes_setError|intros _].
    apply completes_bind; [apply completes_modify|intros _].
    apply completes_guarded.
  - intros sessionId confirmed. unfold deleteSess.
    apply completes_if; [apply completes_ret|].
    apply completes_bind; [apply completes_setError|intros _].
    apply completes_bind; [apply completes_modify|intros _].
    apply completes_guarded.
  - intros w ms Hms. destruct w as [[b ss cur m nm ld er th] ck tm rq].
    cbn [refs messages] in Hms. subst m.
    unfold outcome, sendMsg. cbn.
    destruct (truthy cur) eqn:Hcur; cbn; [|reflexivity].
    rewrite Hcur. destruct (trim nm =? "")%string; cbn; [reflexivity|].
    unfold try_finally, try_catch, bind. cbn.
    match goal with |- context [sendMessage network ?b ?id ?t ?W] =>
      split_outcome (sendMessage network b id t) W end; cbn.
    + rewrite reconcile_run. cbn.
      match goal with |- context [loadSessionsList network ?W] =>
        destruct (completes_loadSessionsList W) as [[] Hc];
        unfold outcome in Hc; destruct (loadSessionsList network W) as [c W']
      end.
      cbn in Hc. subst c. reflexivity.
    + reflexivity.
Qed.

(** X13. Every transition that raises the busy flag lowers it before it
    ends, whatever the service answers: creating and deleting a session
    always; a selection that changes the pointer; and, with a session
    selected, a refresh of the messages, a rollback, a confirmed
    delete-message, and a send of non-blank input into an array of
    messages. *)
Theorem busy_flag_is_lowered w :
  loading (refs (exec (createNewSession network) w)) = false
  /\ (forall sessionId,
        loading (refs (exec (deleteSess network sessionId true) w)) = false)
  /\ (forall id,
        id <> "" ->
        strict_eq_str id (currentSessionId (refs w)) = false ->
        loading (refs (exec (selectSession network id) w)) = false)
  /\ (selected w ->
      loading (refs (exec (loadMessagesList network) w)) = false
      /\ (forall index,
            loading (refs (exec (rollbackTo network index) w)) = false)
      /\ (forall index,
            loading (refs (exec (deleteMsg network index true) w)) = false)
      /\ (forall ms,
            messages (refs w) = VArr ms ->
            trim (newMessage (refs w)) <> "" ->
            loading (refs (exec (sendMsg network) w)) = false)).
Proof.
  destruct w as [[b ss cur m nm ld er th] ck tm rq].
  unfold selected. cbn [refs currentSessionId messages newMessage].
  split; [|split; [|split]].
  - unfold createNewSession, exec. cbn. apply try_finally_lowers.
  - intros sessionId. unfold deleteSess, exec. cbn. apply try_finally_lowers.
  - intros id Hid Hneq. apply String.eqb_neq in Hid.
    unfold selectSession, exec. cbn. rewrite Hid, Hneq. cbn.
    unfold loadMessagesList. cbn. rewrite Hid. cbn. apply try_finally_lowers.
  - intros Hcur. split; [|split; [|split]].
    + unfold loadMessagesList, exec. cbn. rewrite Hcur. cbn.
      apply try_finally_lowers.
    + intros index. unfold rollbackTo, exec. cbn. rewrite Hcur. cbn.
      apply try_finally_lowers.
    + intros index. unfold deleteMsg, exec. cbn. rewrite Hcur. cbn.
      apply try_finally_lowers.
    + intros ms -> Htxt. apply String.eqb_neq in Htxt.
      unfold sendMsg, exec. cbn. rewrite Hcur. cbn. rewrite Hcur, Htxt. cbn.
      apply try_finally_lowers.
Qed.

(** ** The theme *)

(** X14. Whatever [window.CHAT_THEMES] holds, the theme options are a
    non-empty list and the initial theme is a truthy value: a non-empty
    array is taken as it is and its first [key] is used when truthy;
    anything else gives the single built-in theme with key [default]. *)
Theorem theme_options_fall_back_to_default CHAT_THEMES :
  themeOptions CHAT_THEMES <> []
  /\ truthy (initialTheme (themeOptions CHAT_THEMES)) = true
  /\ (forall first rest,
        CHAT_THEMES = VArr (first :: rest) ->
        themeOptions CHAT_THEMES = first :: rest
        /\ (forall key,
              get_prop first "key" = Normal key -> truthy key = true ->
              initialTheme (themeOptions CHAT_THEMES) = key))
  /\ (isArray CHAT_THEMES = false \/ CHAT_THEMES = VArr [] ->
      themeOptions CHAT_THEMES =
        [VObj [("key", VStr "default"); ("label", VStr "默认主题")]]
      /\ initialTheme (themeOptions CHAT_THEMES) = VStr "default").
Proof.
  split; [|split; [|split]].
  - unfold themeOptions.
    destruct (truthy CHAT_THEMES && isArray CHAT_THEMES
              && negb (length match CHAT_THEMES with
                              | VArr l => l
                              | _ => []
                              end =? 0)%nat) eqn:E; [|discriminate].
    apply andb_true_iff in E. destruct E as (_ & E).
    destruct CHAT_THEMES as [| |[|]|n|s|[|x l]|props]; discriminate.
  - assert (Hinit : forall l, truthy (initialTheme l) = true).
    { intros l. unfold initialTheme.
      destruct (truthy (optional_prop (nth 0 l VUndef) "key")) eqn:E;
        [exact E|reflexivity]. }
    apply Hinit.
  - intros first rest ->. split; [reflexivity|].
    intros key Hkey Htr. cbn. unfold initialTheme. cbn [nth].
    assert (Hopt : optional_prop first "key" = key).
    { unfold optional_prop. destruct first; cbn in Hkey |- *;
        try discriminate; congruence. }
    rewrite Hopt, Htr. reflexivity.
  - intros [Harr | ->]; [|split; reflexivity].
    unfold themeOptions. rewrite Harr, andb_false_r. split; reflexivity.
Qed.

Lemma filter_after_remove (P : string -> bool) c l :
  P c = false ->
  filter P (classList_remove c l) = filter P l.
Proof.
  intros Hc. unfold classList_remove. induction l as [|x l IH]; [reflexivity|].
  cbn. destruct (x =? c)%string eqn:E; cbn.
  - apply String.eqb_eq in E. subst x. rewrite Hc. exact IH.
  - destruct (P x); [f_equal|]; exact IH.
Qed.

(** Classes that are no theme classes survive the loop, in their order. *)
Lemma remove_theme_classes_keeps_others n k cls :
  filter (fun c => negb (is_theme_class c)) (remove_theme_classes n k cls) =
  filter (fun c => negb (is_theme_class c)) cls.
Proof.
  revert k cls. induction n as [|n IH]; intros k cls; [reflexivity|].
  cbn [remove_theme_classes]. rewrite IH.
  destruct (nth_error cls k) as [c|]; [|reflexivity].
  fold (is_theme_class c). destruct (is_theme_class c) eqn:E; [|reflexivity].
  apply filter_after_remove. rewrite E. reflexivity.
Qed.

(** The loop changes nothing when no class from index [k] on is a theme
    class. *)
Lemma remove_theme_classes_idle n k cls :
  (forall i c, (k <= i)%nat -> nth_error cls i = Some c ->
               is_theme_class c = false) ->
  remove_theme_classes n k cls = cls.
Proof.
  revert k. induction n as [|n IH]; intros k H; [reflexivity|].
  cbn [remove_theme_classes]. destruct (nth_error cls k) as [c|] eqn:E.
  - fold (is_theme_class c). rewrite (H k c (le_n k) E).
    apply IH. intros i c' Hi. apply H. lia.
  - apply IH. intros i c' Hi. apply H. lia.
Qed.

Lemma no_theme_filter cls :
  (forall c, In c cls -> is_theme_class c = false) ->
  filter (fun c => negb (is_theme_class c)) cls = cls.
Proof.
  intros H. induction cls as [|x l IH]; [reflexivity|].
  cbn. rewrite (H x (or_introl eq_refl)). cbn. f_equal.
  apply IH. intros c Hc. apply H. right. exact Hc.
Qed.

Lemma single_theme_class cls c x :
  (length (filter is_theme_class cls) <= 1)%nat ->
  In c cls -> is_theme_class c = true ->
  In x cls -> is_theme_class x = true -> x = c.
Proof.
  intros Hone Hc Htc Hx Htx.
  assert (Hfc : In c (filter is_theme_class cls)) by (apply filter_In; auto).
  assert (Hfx : In x (filter is_theme_class cls)) by (apply filter_In; auto).
  destruct (filter is_theme_class cls) as [|y [|z l]]; cbn in *;
    [contradiction | | lia].
  destruct Hfc as [<-|[]]. destruct Hfx as [<-|[]]. reflexivity.
Qed.

Lemma remove_theme_classes_single n k cls :
  (length (filter is_theme_class cls) <= 1)%nat ->
  (forall i c, (i < k)%nat -> nth_error cls i = Some c ->
               is_theme_class c = false) ->
  (length cls <= n + k)%nat ->
  remove_theme_classes n k cls =
  filter (fun c => negb (is_theme_class c)) cls.
Proof.
  revert k. induction n as [|n IH]; intros k Hone Hbefore Hlen.
  - cbn. symmetry. apply no_theme_filter. intros c Hc.
    apply In_nth_error in Hc. destruct Hc as [i Hi].
    apply (Hbefore i c); [|exact Hi].
    assert (i < length cls)%nat by (apply nth_error_Some; congruence). lia.
  - cbn [remove_theme_classes]. destruct (nth_error cls k) as [c|] eqn:E.
    + fold (is_theme_class c). destruct (is_theme_class c) eqn:Hc.
      * assert (Hin : In c cls) by (eapply nth_error_In; exact E).
        assert (Heq : classList_remove c cls =
                      filter (fun c => negb (is_theme_class c)) cls).
        { unfold classList_remove. apply filter_ext_in. intros x Hx.
          destruct (x =? c)%string eqn:Exc.
          - apply String.eqb_eq in Exc. subst x. rewrite Hc. reflexivity.
          - destruct (is_theme_class x) eqn:Hxt; [|reflexivity].
            apply String.eqb_neq in Exc. exfalso. apply Exc.
            apply (single_theme_class cls c x); assumption. }
        rewrite Heq. apply remove_theme_classes_idle.
        intros i c' _ Hi. apply nth_error_In in Hi.
        apply filter_In in Hi. destruct Hi as (_ & Hi).
        destruct (is_theme_class c'); [discriminate|reflexivity].
      * apply IH; [exact Hone| |lia].
        intros i c' Hi Hnth. destruct (Nat.eq_dec i k) as [->|Hik].
        -- rewrite E in Hnth. inversion Hnth. subst c'. exact Hc.
        -- apply (Hbefore i c'); [lia|exact Hnth].
    + rewrite remove_theme_classes_idle.
      * symmetry. apply no_theme_filter. intros c Hc.
        apply In_nth_error in Hc. destruct Hc as [i Hi].
        apply (Hbefore i c); [|exact Hi].
        apply nth_error_None in E.
        assert (i < length cls)%nat by (apply nth_error_Some; congruence).
        lia.
      * intros i c Hi Hnth. apply nth_error_None in E.
        assert (i < length cls)%nat by (apply nth_error_Some; congruence).
        lia.
Qed.

Lemma has_token_space_theme val :
  has_token_space ("theme-" ++ val) = has_token_space val.
Proof. reflexivity. Qed.

Lemma is_theme_class_theme val : is_theme_class ("theme-" ++ val) = true.
Proof.
  unfold is_theme_class, startsWith. cbn.
  repeat (rewrite Ascii.eqb_refl; cbn). destruct val; reflexivity.
Qed.

Lemma others_have_no_theme cls :
  filter is_theme_class (filter (fun c => negb (is_theme_class c)) cls) = [].
Proof.
  induction cls as [|x l IH]; [reflexivity|].
  cbn. destruct (is_theme_class x) eqn:E; cbn; [|rewrite E]; exact IH.
Qed.

Lemma others_of_others cls :
  filter (fun c => negb (is_theme_class c))
         (filter (fun c => negb (is_theme_class c)) cls) =
  filter (fun c => negb (is_theme_class c)) cls.
Proof.
  induction cls as [|x l IH]; [reflexivity|].
  cbn. destruct (is_theme_class x) eqn:E; cbn; [|rewrite E; cbn; f_equal];
    exact IH.
Qed.

(** X15. The theme watcher, run on a class list with at most one theme
    class and given a key without whitespace, ends normally with every other
    class kept in place and exactly one theme class, the one of the key, at
    the end of the list. *)
Theorem theme_watcher_leaves_one_theme_class val cls :
  (length (filter is_theme_class cls) <= 1)%nat ->
  has_token_space val = false ->
  theme_watcher val cls =
  (Normal tt,
   (filter (fun c => negb (is_theme_class c)) cls ++ [("theme-" ++ val)%string])%list)
  /\ filter is_theme_class (snd (theme_watcher val cls)) = ["theme-" ++ val]
  /\ filter (fun c => negb (is_theme_class c)) (snd (theme_watcher val cls)) =
     filter (fun c => negb (is_theme_class c)) cls.
Proof.
  intros Hone Hval.
  assert (Hrun : theme_watcher val cls =
    (Normal tt,
     (filter (fun c => negb (is_theme_class c)) cls ++ [("theme-" ++ val)%string])%list)).
  { unfold theme_watcher.
    rewrite (remove_theme_classes_single (length cls) 0 cls Hone);
      [| intros i c Hi; lia | lia].
    unfold classList_add. rewrite has_token_space_theme, Hval.
    replace ("theme-" ++ val =? "")%string with false by reflexivity.
    destruct (existsb (String.eqb ("theme-" ++ val))
                (filter (fun c => negb (is_theme_class c)) cls)) eqn:E;
      [|reflexivity].
    apply existsb_exists in E. destruct E as (x & Hx & Heq).
    apply String.eqb_eq in Heq. subst x. apply filter_In in Hx.
    destruct Hx as (_ & Hx). cbv beta in Hx.
    rewrite (is_theme_class_theme val) in Hx. discriminate. }
  rewrite Hrun. cbn [snd]. split; [reflexivity|].
  rewrite !filter_app. cbn [filter]. rewrite (is_theme_class_theme val).
  cbn [negb]. rewrite others_have_no_theme, others_of_others, app_nil_r.
  split; reflexivity.
Qed.

Lemma remove_theme_classes_skip j n k cls :
  (forall i c, (k <= i < k + j)%nat -> nth_error cls i = Some c ->
               is_theme_class c = false) ->
  remove_theme_classes (j + n) k cls = remove_theme_classes n (k + j) cls.
Proof.
  revert k. induction j as [|j IH]; intros k H.
  - rewrite Nat.add_0_r. reflexivity.
  - cbn [Nat.add remove_theme_classes].
    replace (k + S j)%nat with (S k + j)%nat by lia.
    destruct (nth_error cls k) as [c|] eqn:E.
    + fold (is_theme_class c). rewrite (H k c); [|lia|exact E].
      apply IH. intros i c' Hi. apply H. lia.
    + apply IH. intros i c' Hi. apply H. lia.
Qed.

Lemma remove_theme_classes_step n k cls :
  remove_theme_classes (S n) k cls =
  remove_theme_classes n (S k)
    match nth_error cls k with
    | Some c => if is_theme_class c then classList_remove c cls else cls
    | None => cls
    end.
Proof. reflexivity. Qed.

Lemma classList_remove_others c l :
  (forall x, In x l -> is_theme_class x = false) ->
  is_theme_class c = true ->
  classList_remove c l = l.
Proof.
  intros Hl Hc. unfold classList_remove. induction l as [|x l IH];
    [reflexivity|].
  cbn. destruct (x =? c)%string eqn:E.
  - apply String.eqb_eq in E. subst x.
    rewrite (Hl c (or_introl eq_refl)) in Hc. discriminate.
  - cbn. f_equal. apply IH. intros y Hy. apply Hl. right. exact Hy.
Qed.

(** X16. The removal loop reads the class list while it shrinks: when two
    different theme classes stand next to each other, removing the first
    moves the second into the index just visited, and the loop passes over
    it. The watcher then ends with two theme classes, the survivor and the
    new one. *)
Theorem theme_watcher_skips_an_adjacent_theme_class pre t1 t2 post val :
  (forall c, In c pre -> is_theme_class c = false) ->
  (forall c, In c post -> is_theme_class c = false) ->
  is_theme_class t1 = true ->
  is_theme_class t2 = true ->
  t1 <> t2 ->
  has_token_space val = false ->
  t2 <> "theme-" ++ val ->
  remove_theme_classes (length (pre ++ t1 :: t2 :: post)) 0
                       (pre ++ t1 :: t2 :: post) = (pre ++ t2 :: post)%list
  /\ theme_watcher val (pre ++ t1 :: t2 :: post) =
     (Normal tt, (pre ++ t2 :: post ++ [("theme-" ++ val)%string])%list).
Proof.
  intros Hpre Hpost Ht1 Ht2 Hneq Hval Hnew.
  assert (Hloop :
    remove_theme_classes (length (pre ++ t1 :: t2 :: post)) 0
                         (pre ++ t1 :: t2 :: post) = (pre ++ t2 :: post)%list).
  { rewrite length_app. cbn [length].
    rewrite (remove_theme_classes_skip (length pre)).
    - cbn [Nat.add]. rewrite remove_theme_classes_step.
      rewrite nth_error_app2 by lia. rewrite Nat.sub_diag. cbn [nth_error].
      fold (is_theme_class t1). rewrite Ht1.
      assert (Hrem : classList_remove t1 (pre ++ t1 :: t2 :: post) =
                     (pre ++ t2 :: post)%list).
      { unfold classList_remove. rewrite filter_app. cbn [filter].
        rewrite String.eqb_refl. cbn [negb].
        apply String.eqb_neq in Hneq. rewrite String.eqb_sym in Hneq.
        rewrite Hneq. cbn [negb].
        fold (classList_remove t1 pre). fold (classList_remove t1 post).
        rewrite !classList_remove_others by assumption. reflexivity. }
      rewrite Hrem. apply remove_theme_classes_idle.
      intros i c Hi Hnth. rewrite nth_error_app2 in Hnth by lia.
      destruct (i - length pre)%nat as [|d] eqn:Ed; [lia|].
      cbn in Hnth. apply Hpost. eapply nth_error_In. exact Hnth.
    - intros i c Hi Hnth. rewrite nth_error_app1 in Hnth by lia.
      apply Hpre. eapply nth_error_In. exact Hnth. }
  split; [exact Hloop|].
  unfold theme_watcher. rewrite Hloop. unfold classList_add.
  rewrite has_token_space_theme, Hval.
  replace ("theme-" ++ val =? "")%string with false by reflexivity.
  destruct (existsb (String.eqb ("theme-" ++ val)) (pre ++ t2 :: post))
    eqn:E.
  - apply existsb_exists in E. destruct E as (x & Hx & Heq).
    apply String.eqb_eq in Heq. subst x.
    apply in_app_or in Hx. destruct Hx as [Hx|[Hx|Hx]].
    + apply Hpre in Hx. rewrite (is_theme_class_theme val) in Hx.
      discriminate.
    + contradiction.
    + apply Hpost in Hx. rewrite (is_theme_class_theme val) in Hx.
      discriminate.
  - rewrite <- app_assoc. reflexivity.
Qed.

(** ** The keyboard *)

(** Linear arithmetic with division by a constant. *)
Ltac ndiv := zify; Z.to_euclidean_division_equations; lia.

Lemma byte_of_N n : (n < 256)%N -> N_of_ascii (ascii_of_N n) = n.
Proof. apply N_ascii_embedding. Qed.

Lemma code_points_of_utf8_app c r :
  (c < 0x110000)%N ->
  code_points_of_utf8 (utf8_of_code_point c ++ r) = c :: code_points_of_utf8 r.
Proof.
  intros Hc. unfold utf8_of_code_point.
  destruct (c <? 0x80)%N eqn:E1; [|destruct (c <? 0x800)%N eqn:E2;
    [|destruct (c <? 0x10000)%N eqn:E3]];
    cbn [append code_points_of_utf8];
    repeat match goal with
    | H : (_ <? _)%N = true |- _ => apply N.ltb_lt in H
    | H : (_ <? _)%N = false |- _ => apply N.ltb_ge in H
    end;
    repeat (rewrite byte_of_N by ndiv).
  - replace (c <? 0x80)%N with true by (symmetry; apply N.ltb_lt; lia).
    reflexivity.
  - replace (0xC0 + c / 0x40 <? 0x80)%N with false
      by (symmetry; apply N.ltb_ge; ndiv).
    replace (0xC0 + c / 0x40 <? 0xE0)%N with true
      by (symmetry; apply N.ltb_lt; ndiv).
    f_equal. ndiv.
  - replace (0xE0 + c / 0x1000 <? 0x80)%N with false
      by (symmetry; apply N.ltb_ge; ndiv).
    replace (0xE0 + c / 0x1000 <? 0xE0)%N with false
      by (symmetry; apply N.ltb_ge; ndiv).
    replace (0xE0 + c / 0x1000 <? 0xF0)%N with true
      by (symmetry; apply N.ltb_lt; ndiv).
    f_equal. ndiv.
  - replace (0xF0 + c / 0x40000 <? 0x80)%N with false
      by (symmetry; apply N.ltb_ge; ndiv).
    replace (0xF0 + c / 0x40000 <? 0xE0)%N with false
      by (symmetry; apply N.ltb_ge; ndiv).
    replace (0xF0 + c / 0x40000 <? 0xF0)%N with false
      by (symmetry; apply N.ltb_ge; ndiv).
    f_equal. ndiv.
Qed.

Lemma append_empty (s : string) : s ++ "" = s.
Proof. induction s as [|c s IH]; cbn; [reflexivity|rewrite IH; reflexivity]. Qed.

Lemma concat_cons (x : string) (xs : list string) :
  String.concat "" (x :: xs) = x ++ String.concat "" xs.
Proof. destruct xs; cbn; [rewrite append_empty|]; reflexivity. Qed.

Lemma code_points_of_utf8_concat (l : list N) :
  Forall (fun c => (c < 0x110000)%N) l ->
  code_points_of_utf8 (String.concat "" (map utf8_of_code_point l)) = l.
Proof.
  induction 1 as [|c l Hc Hl IH]; [reflexivity|].
  cbn [map]. rewrite concat_cons, code_points_of_utf8_app by exact Hc.
  rewrite IH. reflexivity.
Qed.

Lemma surrogates (u v : N) :
  is_high_surrogate u && is_low_surrogate v = true ->
  (0xD800 <= u <= 0xDBFF /\ 0xDC00 <= v <= 0xDFFF)%N.
Proof.
  unfold is_high_surrogate, is_low_surrogate. intros H.
  apply andb_prop in H. destruct H as [Hu Hv].
  apply andb_prop in Hu. apply andb_prop in Hv.
  destruct Hu as [H1 H2], Hv as [H3 H4].
  apply N.leb_le in H1, H2, H3, H4. lia.
Qed.

Lemma code_points_step (u v : N) (r : utf16) :
  code_points (u :: v :: r) =
  if is_high_surrogate u && is_low_surrogate v
  then (0x10000 + (u - 0xD800) * 0x400 + (v - 0xDC00))%N :: code_points r
  else u :: code_points (v :: r).
Proof. reflexivity. Qed.

(** Both facts about [code_points] at once, for every string of at most [n]
    units: the recursion skips two units at a pair. *)
Lemma code_points_sound n : forall s : utf16,
  (length s <= n)%nat ->
  well_formed s ->
  Forall (fun c => (c < 0x110000)%N) (code_points s)
  /\ flat_map units_of_code_point (code_points s) = s.
Proof.
  induction n as [|n IH]; intros s Hn Hs.
  - destruct s; [split; [constructor|reflexivity]|cbn in Hn; lia].
  - destruct s as [|u [|v r]].
    + split; [constructor|reflexivity].
    + inversion Hs as [|? ? Hu _]; subst. cbn.
      unfold units_of_code_point.
      replace (u <? 0x10000)%N with true by (symmetry; apply N.ltb_lt; lia).
      split; [repeat constructor; lia|reflexivity].
    + inversion Hs as [|? ? Hu Hs']; subst.
      inversion Hs' as [|? ? Hv Hr]; subst.
      rewrite code_points_step.
      destruct (is_high_surrogate u && is_low_surrogate v) eqn:E.
      * apply surrogates in E.
        destruct (IH r) as [Hcp Hunits]; [cbn in Hn; lia|exact Hr|].
        split.
        -- constructor; [lia|exact Hcp].
        -- cbn [flat_map]. rewrite Hunits. unfold units_of_code_point.
           replace (_ <? 0x10000)%N with false
             by (symmetry; apply N.ltb_ge; lia).
           cbn [app]. f_equal; [ndiv|]. f_equal. ndiv.
      * destruct (IH (v :: r)) as [Hcp Hunits]; [cbn in Hn |- *; lia|exact Hs'|].
        split.
        -- constructor; [lia|exact Hcp].
        -- cbn [flat_map]. rewrite Hunits. unfold units_of_code_point.
           replace (u <? 0x10000)%N with true
             by (symmetry; apply N.ltb_lt; lia).
           reflexivity.
Qed.

(** [utf8] loses nothing: the code units can be read back from the bytes. *)
Lemma utf16_of_utf8_of_utf16 (s : utf16) :
  well_formed s -> utf16_of_utf8 (utf8 s) = s.
Proof.
  intros Hs. destruct (code_points_sound (length s) s (le_n _) Hs) as [Hcp Hu].
  unfold utf16_of_utf8, utf8. rewrite code_points_of_utf8_concat by exact Hcp.
  exact Hu.
Qed.

Lemma utf8_injective (s t : utf16) :
  well_formed s -> well_formed t -> utf8 s = utf8 t -> s = t.
Proof.
  intros Hs Ht H. rewrite <- (utf16_of_utf8_of_utf16 s Hs), H.
  apply utf16_of_utf8_of_utf16, Ht.
Qed.

Lemma firstn_head {A} (a t : list A) :
  firstn (length a) (a ++ t)%list = a.
Proof.
  induction a as [|c a IH]; cbn; [reflexivity|]. rewrite IH. reflexivity.
Qed.

Lemma skipn_tail {A} (a t : list A) :
  skipn (length a) (a ++ t)%list = t.
Proof. induction a as [|c a IH]; cbn; [reflexivity|exact IH]. Qed.

Lemma slice_head (a t : utf16) :
  slice (a ++ t)%list 0 (Z.of_nat (length a)) = a.
Proof.
  unfold slice, slice_index. rewrite length_app.
  replace (0 <? 0) with false by reflexivity.
  replace (Z.of_nat (length a) <? 0) with false
    by (symmetry; apply Z.ltb_ge; lia).
  rewrite Z.min_l by lia. rewrite Z.min_l by lia.
  rewrite Z.sub_0_r, Z.max_l by lia. rewrite Nat2Z.id. cbn [Z.to_nat skipn].
  apply firstn_head.
Qed.

Lemma slice_from_tail (a t : utf16) :
  slice_from (a ++ t)%list (Z.of_nat (length a)) = t.
Proof.
  unfold slice_from, slice, slice_index. rewrite length_app.
  replace (Z.of_nat (length a) <? 0) with false
    by (symmetry; apply Z.ltb_ge; lia).
  replace (Z.of_nat (length a + length t) <? 0) with false
    by (symmetry; apply Z.ltb_ge; lia).
  rewrite Z.min_l by lia. rewrite Z.min_l by lia.
  rewrite Z.max_l by lia. rewrite Nat2Z.id.
  replace (Z.to_nat (Z.of_nat (length a + length t) - Z.of_nat (length a)))
    with (length t) by lia.
  rewrite skipn_tail. apply firstn_all.
Qed.

(** X17. Enter with Ctrl or Cmd held, in a textarea whose text is the code
    units [before], then the selected [chosen], then [after], the selection
    being reported in code units: the text becomes [before], a newline,
    [after]; the caret stands right behind the newline; the input buffer
    holds the new text; nothing else changes and no request is made. *)
Theorem handleEnterKey_inserts_a_newline event before chosen after w :
  ctrlKey event || metaKey event = true ->
  text_value (target event) = (before ++ chosen ++ after)%list ->
  selectionStart (target event) = Z.of_nat (length before) ->
  selectionEnd (target event) = Z.of_nat (length before + length chosen) ->
  handleEnterKey network event w =
  (Normal {| text_value := (before ++ newline ++ after)%list;
             selectionStart := Z.of_nat (length before) + 1;
             selectionEnd := Z.of_nat (length before) + 1 |},
   with_refs (put_newMessage (utf8 (before ++ newline ++ after)%list)) w).
Proof.
  intros Hmod Hv Hs He. unfold handleEnterKey. rewrite Hmod, Hv, Hs, He.
  rewrite slice_head.
  rewrite <- length_app, (app_assoc before chosen after), slice_from_tail.
  reflexivity.
Qed.

(** What [sendMsg] sends first. *)
Lemma sendMsg_posts_first w ms sid :
  selected w ->
  trim (newMessage (refs w)) <> "" ->
  messages (refs w) = VArr ms ->
  encodeURIComponent (currentSessionId (refs w)) = Normal sid ->
  exists rest,
    requests (exec (sendMsg network) w) =
    (requests w ++
       mkRequest (apiBase (refs w)) ("/sessions/" ++ sid ++ "/messages")
                 "POST"
                 (Some (VObj [("content", VStr (trim (newMessage (refs w))))]))
       :: rest)%list.
Proof.
  intros Hcur Htxt Hms Henc. unfold selected in Hcur.
  destruct w as [[b ss cur m nm ld er th] ck tm rq].
  cbn [refs apiBase currentSessionId newMessage messages requests] in *.
  subst m. apply String.eqb_neq in Htxt.
  unfold exec, sendMsg. cbn. rewrite Hcur. cbn.
  rewrite Hcur, Htxt. cbn. unfold try_finally, try_catch, bind. cbn.
  erewrite sendMessage_run by eassumption. cbn.
  destruct (answer (network (length rq))) as [data|e]; cbn.
  - rewrite reconcile_run. cbn.
    rewrite loadSessionsList_selected_run by exact Hcur. cbn.
    rewrite length_snoc.
    exists [mkRequest b "/sessions" "GET" None].
    destruct (answer (network (S (length rq)))); cbn;
      rewrite <- app_assoc; reflexivity.
  - exists []. reflexivity.
Qed.

(** X18. Enter without Ctrl or Cmd runs [sendMsg] and returns normally
    whatever becomes of it. It asks neither [canSend] nor the busy flag:
    while a transition is in progress ([canSend] is false) a further Enter
    on non-blank input posts the text again. *)
Theorem handleEnterKey_sends_even_while_busy event w ms sid :
  ctrlKey event = false ->
  metaKey event = false ->
  loading (refs w) = true ->
  selected w ->
  trim (newMessage (refs w)) <> "" ->
  messages (refs w) = VArr ms ->
  encodeURIComponent (currentSessionId (refs w)) = Normal sid ->
  canSend (refs w) = false
  /\ outcome (handleEnterKey network event) w = Normal (target event)
  /\ exec (handleEnterKey network event) w = exec (sendMsg network) w
  /\ exists rest,
       requests (exec (handleEnterKey network event) w) =
       (requests w ++
          mkRequest (apiBase (refs w)) ("/sessions/" ++ sid ++ "/messages")
                    "POST"
                    (Some (VObj
                       [("content", VStr (trim (newMessage (refs w))))]))
          :: rest)%list.
Proof.
  intros Hc Hm Hld Hcur Htxt Hms Henc.
  assert (Hrun : handleEnterKey network event w =
                 (Normal (target event), exec (sendMsg network) w)).
  { unfold handleEnterKey. rewrite Hc, Hm. reflexivity. }
  split; [|split; [|split]].
  - unfold canSend. rewrite Hld. reflexivity.
  - unfold outcome. rewrite Hrun. reflexivity.
  - unfold exec at 1. rewrite Hrun. reflexivity.
  - unfold exec at 1. rewrite Hrun. cbn [snd].
    apply (sendMsg_posts_first w ms sid); assumption.
Qed.

End Properties.

(** * Instances of the theorems on the demo host *)

Module Runs.
Import Demo.

Definition u0 : value := msg "user" "u0".
Definition a0 : value := msg "assistant" "a0".
Definition u1 : value := msg "user" "u1".
Definition a1 : value := msg "assistant" "a1".

(** Session [a] of two is selected, it has four messages, and [hello] is
    typed into the input box. *)
Definition chatting : World :=
  {| refs := {| apiBase := "http://127.0.0.1:8000/api";
                sessions := [session "a"; session "b"];
                currentSessionId := VStr "a";
                messages := VArr [u0; a0; u1; a1];
                newMessage := " hello ";
                loading := false;
                error := "";
                currentTheme := "default" |};
     clock := 0; timers := []; requests := [] |}.



Lemma base_url_trailing_slash_irrelevant_witness :
  request_url ("http://127.0.0.1:8000/api" ++ "/") "/sessions" =
  request_url "http://127.0.0.1:8000/api" "/sessions".
Proof.
  exact (proj1 (proj1 (base_url_trailing_slash_irrelevant (script [])
                         "http://127.0.0.1:8000/api" eq_refl) "/sessions")).
Defined.

Lemma sendMsg_failure_restores_messages_witness :
  messages (refs (exec (sendMsg (script [])) chatting)) =
  VArr [u0; a0; u1; a1].
Proof.
  refine (proj1 (proj2 (sendMsg_failure_restores_messages (script [])
                   chatting [u0; a0; u1; a1] (MkError "Failed to fetch")
                   eq_refl _ eq_refl eq_refl))).
  vm_compute. discriminate.
Defined.

Lemma sendMsg_validation_skips_witness :
  sendMsg (script []) (with_refs (put_newMessage "   ") chatting) =
  (Normal tt, with_refs (put_newMessage "   ") chatting).
Proof.
  exact (proj2 (sendMsg_validation_skips (script [])
                  (with_refs (put_newMessage "   ") chatting))
               eq_refl eq_refl).
Defined.

(** C4 fails as stated: with no session selected, [sendMsg] puts a message
    into the empty error slot. *)
Lemma sendMsg_without_session_surfaces_error :
  truthy (currentSessionId (refs initial_world)) = false
  /\ error (refs initial_world) = ""
  /\ error (refs (exec (sendMsg (script [])) initial_world)) =
     "请先选择或创建会话"
  /\ error (refs (exec (sendMsg (script [])) initial_world)) <> "".
Proof. repeat split. vm_compute. discriminate. Qed.


Definition failed_to_fetch : JsError := MkError "Failed to fetch".

Lemma first_call_failure_keeps_data_witness :
  observable (refs (exec (selectSession (script []) "b") chatting)) =
  ([session "a"; session "b"], VStr "b", VArr [u0; a0; u1; a1])
  /\ observable (refs (exec (rollbackTo (script []) 1) chatting)) =
     observable (refs chatting).
Proof.
  pose (T := first_call_failure_keeps_data (script []) chatting
               failed_to_fetch).
  split.
  - refine (proj1 (proj2 T) "b" _ eq_refl eq_refl). discriminate.
  - exact (proj1 (proj2 (proj2 (proj2 (proj2 (proj2 T))))) 1 eq_refl eq_refl).
Defined.

(** C2 fails as stated: the service cannot be reached while session [b] is
    being selected; the transition ends with the pointer on [b] and the four
    messages of session [a] still in the sequence. *)
Lemma selectSession_failure_is_not_rolled_back :
  outcome (getMessages (script []) (apiBase (refs chatting)) (VStr "b"))
          chatting = Throw failed_to_fetch
  /\ currentSessionId (refs chatting) = VStr "a"
  /\ currentSessionId (refs (exec (selectSession (script []) "b") chatting))
     = VStr "b"
  /\ messages (refs (exec (selectSession (script []) "b") chatting))
     = VArr [u0; a0; u1; a1]
  /\ observable (refs (exec (selectSession (script []) "b") chatting))
     <> observable (refs chatting).
Proof. repeat split. vm_compute. discriminate. Qed.


(** The service answers 200 with the JSON text [{}]. *)
Definition empty_object_reply : FetchOutcome := json_reply (VObj []).

Lemma malformed_success_is_tolerated_witness :
  sessions (refs (exec (loadSessionsList (script [empty_object_reply]))
                       chatting)) = []
  /\ messages (refs (exec (loadMessagesList (script [empty_object_reply]))
                          chatting)) = VArr []
  /\ messages (refs (exec (sendMsg (script [empty_object_reply])) chatting))
     = VArr [u0; a0; u1; a1; userMsg "hello" 0]
  /\ messages (refs (exec (rollbackTo (script [empty_object_reply]) 1)
                          chatting)) = VArr [u0; a0; u1; a1]
  /\ messages (refs (exec (deleteMsg (script [empty_object_reply]) 1 true)
                          chatting)) = VArr [u0; a0; u1; a1].
Proof.
  pose (T := malformed_success_is_tolerated (script [empty_object_reply])
               chatting (VObj []) eq_refl).
  split; [|split; [|split; [|split]]].
  - exact (proj2 (proj1 T eq_refl)).
  - exact (proj2 (proj1 (proj2 T) eq_refl eq_refl)).
  - refine (proj2 (proj1 (proj2 (proj2 T)) [u0; a0; u1; a1] eq_refl eq_refl
                         _ eq_refl eq_refl)).
    vm_compute. discriminate.
  - exact (proj2 (proj1 (proj2 (proj2 (proj2 T))) 1 eq_refl eq_refl eq_refl)).
  - exact (proj2 (proj2 (proj2 (proj2 (proj2 T))) 1 eq_refl eq_refl eq_refl)).
Defined.


(** The page has just been opened and the service lists sessions [a], [b];
    session [a] has the four messages. *)
Definition first_load : nat -> FetchOutcome :=
  script [json_reply (VArr [session "a"; session "b"]);
          json_reply (VArr [u0; a0; u1; a1])].

Lemma loadSessionsList_replaces_and_selects_first_witness :
  observable (refs (exec (loadSessionsList first_load) initial_world)) =
  ([session "a"; session "b"], VStr "a", VArr [u0; a0; u1; a1]).
Proof.
  pose (T := loadSessionsList_replaces_and_selects_first first_load
               initial_world [session "a"; session "b"] eq_refl).
  pose (U := proj2 T (session "a") [session "b"] (VStr "a")
               eq_refl eq_refl eq_refl).
  pose (V := proj2 (proj2 U "a" eq_refl eq_refl) (VArr [u0; a0; u1; a1])
               eq_refl).
  unfold observable.
  rewrite (proj1 T), (proj1 U), V. reflexivity.
Defined.

Lemma pointer_follows_refresh_and_select_witness :
  pointer_invariant (refs (exec (loadSessionsList first_load) initial_world))
  /\ currentSessionId (refs (exec (selectSession (script []) "zzz") chatting))
     = VStr "zzz".
Proof.
  pose (T := pointer_follows_refresh_and_select first_load initial_world).
  pose (U := pointer_follows_refresh_and_select (script []) chatting).
  split.
  - exact (proj2 (proj2 (proj1 T (session "a") [session "b"] (VStr "a")
                           eq_refl eq_refl eq_refl)) eq_refl).
  - refine (proj1 (proj1 (proj2 (proj2 U)) "zzz" _ eq_refl)). discriminate.
Defined.

(** The service knows no session [zzz] and says so. *)
Definition not_found : nat -> FetchOutcome :=
  script [status_reply 404 "Not Found"
                       (VObj [("detail", VStr "Session not found")])].

(** The service lists session [b] only. *)
Definition only_b : nat -> FetchOutcome :=
  script [json_reply (VArr [session "b"])].

(** C3 fails as stated: starting from a state that satisfies the invariant,
    selecting an identifier that no listed session has, and refreshing to a
    list that no longer contains the selected session, both end with
    sessions in the list and a pointer that is the [id] of none of them. *)
Lemma pointer_can_leave_the_list :
  pointer_invariant (refs chatting)
  /\ ~ pointer_invariant (refs (exec (selectSession not_found "zzz") chatting))
  /\ ~ pointer_invariant (refs (exec (loadSessionsList only_b) chatting)).
Proof.
  split; [|split].
  - split.
    + intros _. exists (session "a"). split; [left|]; reflexivity.
    + discriminate.
  - intros [H _]. destruct H as (v & Hin & Hid); [discriminate|].
    cbn in Hin. destruct Hin as [<- | [<- | []]]; discriminate.
  - intros [H _]. destruct H as (v & Hin & Hid); [discriminate|].
    cbn in Hin. destruct Hin as [<- | []]. discriminate.
Qed.














(** ** Runs for the further properties *)

(** The append succeeds with the six messages of the session, the refresh
    with the two sessions. *)
Definition hello_answered : nat -> FetchOutcome :=
  script [json_reply (VArr [u0; a0; u1; a1; msg "user" "hello";
                            msg "assistant" "hi"]);
          json_reply (VArr [session "a"; session "b"])].

Lemma sendMsg_success_replaces_messages_witness :
  messages (refs (exec (sendMsg hello_answered) chatting)) =
  VArr [u0; a0; u1; a1; msg "user" "hello"; msg "assistant" "hi"]
  /\ newMessage (refs (exec (sendMsg hello_answered) chatting)) = "".
Proof.
  assert (Hne : trim (newMessage (refs chatting)) <> "")
    by (vm_compute; discriminate).
  pose (T := sendMsg_success_replaces_messages hello_answered chatting
               [u0; a0; u1; a1] "a"
               [u0; a0; u1; a1; msg "user" "hello"; msg "assistant" "hi"]
               eq_refl Hne eq_refl eq_refl eq_refl).
  exact (conj (proj1 (proj2 T)) (proj1 (proj2 (proj2 T)))).
Defined.

(** The service rolls back to the first message. *)
Definition rolled_back : nat -> FetchOutcome :=
  script [json_reply (VArr [u0]); json_reply (VArr [session "a"; session "b"])].

Lemma rollback_and_delete_take_the_returned_sequence_witness :
  messages (refs (exec (rollbackTo rolled_back 1) chatting)) = VArr [u0]
  /\ messages (refs (exec (deleteMsg rolled_back 1 true) chatting)) = VArr [u0].
Proof.
  pose (T := rollback_and_delete_take_the_returned_sequence rolled_back
               chatting 1 "a" (VArr [u0]) eq_refl eq_refl eq_refl).
  split.
  - exact (proj1 (proj2 (proj2 (proj2 (proj2 (proj1 T))))) [u0] eq_refl).
  - exact (proj1 (proj2 (proj2 (proj2 (proj2 (proj2 T))))) [u0] eq_refl).
Defined.

(** The service wraps its result, and what it wraps is no array. *)
Definition wrapped_text : nat -> FetchOutcome :=
  script [json_reply (VObj [("messages", VStr "gone")])].

Definition after_wrapped_text : World :=
  exec (rollbackTo wrapped_text 1) chatting.

Lemma sendMsg_throws_on_non_array_messages_witness :
  messages (refs after_wrapped_text) = VStr "gone"
  /\ (exists e, outcome (sendMsg (script [])) after_wrapped_text = Throw e)
  /\ loading (refs (exec (sendMsg (script [])) after_wrapped_text)) = true.
Proof.
  assert (Hne : trim (newMessage (refs after_wrapped_text)) <> "")
    by (vm_compute; discriminate).
  pose (T := sendMsg_throws_on_non_array_messages (script [])
               after_wrapped_text eq_refl Hne eq_refl).
  exact (conj eq_refl (conj (proj1 T) (proj1 (proj2 T)))).
Defined.

(** A session is created on a service that had none. *)
Definition first_session_created : nat -> FetchOutcome :=
  script [json_reply (session "n");
          json_reply (VArr [session "n"]);
          json_reply (VArr [])].

Lemma createNewSession_clears_then_refreshes_witness :
  observable (refs (exec (createNewSession first_session_created)
                         initial_world)) =
  ([session "n"], VStr "n", VArr [])
  /\ observable (refs (exec (createNewSession first_session_created)
                            chatting)) =
     ([session "n"], VStr "a", VArr []).
Proof.
  pose (T := createNewSession_clears_then_refreshes first_session_created
               initial_world (session "n") eq_refl).
  pose (U := proj2 T (session "n") [] (VStr "n") "n" (VArr [])
               eq_refl eq_refl eq_refl eq_refl eq_refl eq_refl).
  pose (V := proj1 (createNewSession_clears_then_refreshes
                      first_session_created chatting (session "n") eq_refl)
                   eq_refl).
  split.
  - unfold observable.
    rewrite (proj1 (proj2 U)), (proj1 (proj2 (proj2 U))),
      (proj1 (proj2 (proj2 (proj2 U)))). reflexivity.
  - unfold observable.
    rewrite (proj1 (proj2 V)), (proj1 (proj2 (proj2 V))). reflexivity.
Defined.

Lemma loadMessagesList_stores_what_it_fetched_witness :
  loadMessagesList (script []) initial_world = (Normal tt, initial_world)
  /\ messages (refs (exec (loadMessagesList rolled_back) chatting)) = VArr [u0].
Proof.
  split.
  - exact (proj1 (loadMessagesList_stores_what_it_fetched (script [])
                    initial_world) eq_refl).
  - exact (proj1 (proj2 (proj2 (loadMessagesList_stores_what_it_fetched
                                  rolled_back chatting)
                               "a" [u0] eq_refl eq_refl eq_refl))).
Defined.

Lemma selectSession_switches_and_loads_witness :
  selectSession rolled_back "a" chatting = (Normal tt, chatting)
  /\ observable (refs (exec (selectSession rolled_back "b") chatting)) =
     ([session "a"; session "b"], VStr "b", VArr [u0]).
Proof.
  pose (T := selectSession_switches_and_loads rolled_back chatting "a").
  pose (U := selectSession_switches_and_loads rolled_back chatting "b").
  split.
  - exact (proj1 T (or_intror eq_refl)).
  - assert (Hne : "b" <> "") by discriminate.
    unfold exec.
    rewrite (proj2 U "b" (VArr [u0]) Hne eq_refl eq_refl eq_refl).
    reflexivity.
Defined.

(** The service lists a single session, and it is [null]. *)
Definition null_session : nat -> FetchOutcome := script [json_reply (VArr [VNull])].

Lemma loadSessionsList_unusable_first_session_witness :
  observable (refs (exec (loadSessionsList null_session) initial_world)) =
  ([VNull], VNull, VArr [])
  /\ error (refs (exec (loadSessionsList null_session) initial_world)) =
     "加载会话列表失败：Cannot read properties of null (reading 'id')".
Proof.
  pose (T := proj1 (loadSessionsList_unusable_first_session null_session
                      initial_world VNull [] eq_refl eq_refl)
                   _ eq_refl).
  split.
  - unfold observable.
    rewrite (proj1 (proj2 T)), (proj1 (proj2 (proj2 T))),
      (proj1 (proj2 (proj2 (proj2 T)))). reflexivity.
  - exact (proj1 (proj2 (proj2 (proj2 (proj2 T))))).
Defined.

(** The delete succeeds and the service cannot be reached afterwards. *)
Definition deleted_then_offline : nat -> FetchOutcome :=
  script [json_reply (VObj [("message", VStr "Session a deleted")])].

Lemma deleteSess_falls_back_on_the_stale_list_witness :
  currentSessionId
    (refs (exec (deleteSess deleted_then_offline "a" true) chatting)) =
  VStr "a"
  /\ sessions (refs (exec (deleteSess deleted_then_offline "a" true) chatting))
     = [session "a"; session "b"].
Proof.
  assert (Hne : "a" <> "") by discriminate.
  pose (T := deleteSess_falls_back_on_the_stale_list deleted_then_offline
               chatting "a" "a"
               (VObj [("message", VStr "Session a deleted")]) failed_to_fetch
               (session "a") [session "b"] (VStr "a")
               Hne eq_refl eq_refl eq_refl eq_refl eq_refl eq_refl).
  exact (conj (proj1 (proj2 (proj2 T))) (proj1 (proj2 T))).
Defined.

Definition server_error : Response :=
  {| status := 500; statusText := "Internal Server Error";
     contentType := Some "text/plain";
     json := Throw (MkError "Unexpected token"); text := Normal "oops" |}.

Lemma http_error_status_is_shown_witness :
  error (refs (exec (loadSessionsList (script [Responded server_error]))
                    chatting)) =
  "加载会话列表失败：API error: 500 Internal Server Error".
Proof.
  refine (proj1 (proj1 (http_error_status_is_shown
                          (script [Responded server_error]) chatting
                          server_error eq_refl _))).
  right. cbn. lia.
Defined.

(** A proxy answers 200 with a page of HTML. *)
Definition html_page : Response :=
  {| status := 200; statusText := "OK";
     contentType := Some "text/html";
     json := Throw (MkError "Unexpected token"); text := Normal "<html>" |}.

Lemma non_json_success_silently_empties_witness :
  sessions (refs (exec (loadSessionsList (script [Responded html_page]))
                       chatting)) = []
  /\ error (refs (exec (loadSessionsList (script [Responded html_page]))
                       chatting)) = "".
Proof.
  assert (Hok : 200 <= status html_page <= 299) by (cbn; lia).
  pose (T := proj1 (non_json_success_silently_empties
                      (script [Responded html_page]) chatting html_page
                      "<html>" eq_refl Hok eq_refl eq_refl)).
  exact (conj (proj1 (proj2 T)) (proj2 (proj2 (proj2 T)))).
Defined.

Lemma transitions_never_throw_witness :
  outcome (sendMsg (script [])) chatting = Normal tt.
Proof.
  exact (proj2 (proj2 (proj2 (proj2 (proj2 (proj2 (proj2
           (transitions_never_throw (script [])))))))) chatting
           [u0; a0; u1; a1] eq_refl).
Defined.

Lemma busy_flag_is_lowered_witness :
  loading (refs (exec (rollbackTo (script []) 1) chatting)) = false.
Proof.
  exact (proj1 (proj2 (proj2 (proj2 (proj2 (busy_flag_is_lowered (script [])
                                               chatting))) eq_refl)) 1).
Defined.

(** The themes the page configures. *)
Definition CHAT_THEMES : value :=
  VArr [VObj [("key", VStr "default"); ("label", VStr "默认主题");
              ("description", VStr "蓝绿色冷色系，适合长时间使用")];
        VObj [("key", VStr "pink"); ("label", VStr "粉色主题");
              ("description", VStr "偏粉紫的氛围，更活泼可爱")];
        VObj [("key", VStr "dark"); ("label", VStr "暗夜主题");
              ("description", VStr "更深的暗色，对比更强，适合夜间")];
        VObj [("key", VStr "gold"); ("label", VStr "黄金主题");
              ("description", VStr "金色高亮强调，适合展示效果")]].

Lemma theme_options_fall_back_to_default_witness :
  length (themeOptions CHAT_THEMES) = 4%nat
  /\ initialTheme (themeOptions CHAT_THEMES) = VStr "default"
  /\ initialTheme (themeOptions VUndef) = VStr "default".
Proof.
  pose (T := theme_options_fall_back_to_default CHAT_THEMES).
  pose (U := theme_options_fall_back_to_default VUndef).
  split; [|split].
  - destruct (proj1 (proj2 (proj2 T)) _ _ eq_refl) as (-> & _). reflexivity.
  - exact (proj2 (proj1 (proj2 (proj2 T)) _ _ eq_refl) (VStr "default")
                 eq_refl eq_refl).
  - exact (proj2 (proj2 (proj2 (proj2 U)) (or_introl eq_refl))).
Defined.

Lemma theme_watcher_leaves_one_theme_class_witness :
  theme_watcher "dark" ["app"; "theme-default"; "wide"] =
  (Normal tt, ["app"; "wide"; "theme-dark"]).
Proof.
  refine (proj1 (theme_watcher_leaves_one_theme_class "dark"
                   ["app"; "theme-default"; "wide"] _ eq_refl)).
  cbn. lia.
Defined.

Lemma theme_watcher_skips_an_adjacent_theme_class_witness :
  theme_watcher "pink" ["app"; "theme-default"; "theme-dark"; "wide"] =
  (Normal tt, ["app"; "theme-dark"; "wide"; "theme-pink"]).
Proof.
  refine (proj2 (theme_watcher_skips_an_adjacent_theme_class
                   ["app"] "theme-default" "theme-dark" ["wide"] "pink"
                   _ _ eq_refl eq_refl _ eq_refl _)).
  - intros c [<-|[]]. reflexivity.
  - intros c [<-|[]]. reflexivity.
  - discriminate.
  - discriminate.
Defined.

(** Ctrl+Enter in a textarea that holds three Chinese characters, the
    middle one selected: each is one code unit and three bytes. *)
Definition ctrl_enter : KeyEvent :=
  {| ctrlKey := true; metaKey := false;
     target := {| text_value := [0x4F60; 0x597D; 0x5417]%N;
                  selectionStart := 1; selectionEnd := 2 |} |}.

(** Cmd+Enter with the caret between an emoji, which takes two code units,
    and an exclamation mark. *)
Definition cmd_enter : KeyEvent :=
  {| ctrlKey := false; metaKey := true;
     target := {| text_value := [0xD83D; 0xDE00; 0x21]%N;
                  selectionStart := 2; selectionEnd := 2 |} |}.

Definition line_feed : string := String (ascii_of_nat 10) EmptyString.

Lemma handleEnterKey_inserts_a_newline_witness :
  handleEnterKey (script []) ctrl_enter chatting =
  (Normal {| text_value := [0x4F60; 0xA; 0x5417]%N; selectionStart := 2;
             selectionEnd := 2 |},
   with_refs (put_newMessage ("你" ++ line_feed ++ "吗")) chatting)
  /\ handleEnterKey (script []) cmd_enter chatting =
     (Normal {| text_value := [0xD83D; 0xDE00; 0xA; 0x21]%N;
                selectionStart := 3; selectionEnd := 3 |},
      with_refs (put_newMessage ("😀" ++ line_feed ++ "!")) chatting).
Proof.
  split.
  - rewrite (handleEnterKey_inserts_a_newline (script []) ctrl_enter
               [0x4F60]%N [0x597D]%N [0x5417]%N chatting
               eq_refl eq_refl eq_refl eq_refl).
    reflexivity.
  - rewrite (handleEnterKey_inserts_a_newline (script []) cmd_enter
               [0xD83D; 0xDE00]%N [] [0x21]%N chatting
               eq_refl eq_refl eq_refl eq_refl).
    reflexivity.
Defined.

(** Enter while the previous transition is still in progress. *)
Definition plain_enter : KeyEvent :=
  {| ctrlKey := false; metaKey := false;
     target := {| text_value := [32; 104; 101; 108; 108; 111; 32]%N;
                  selectionStart := 7; selectionEnd := 7 |} |}.

Lemma handleEnterKey_sends_even_while_busy_witness :
  canSend (refs (with_refs (put_loading true) chatting)) = false
  /\ length (requests (exec (handleEnterKey hello_answered plain_enter)
                            (with_refs (put_loading true) chatting))) = 2%nat.
Proof.
  assert (Hne : trim (newMessage (refs (with_refs (put_loading true) chatting)))
                <> "") by (vm_compute; discriminate).
  pose (T := handleEnterKey_sends_even_while_busy hello_answered plain_enter
               (with_refs (put_loading true) chatting) [u0; a0; u1; a1] "a"
               eq_refl eq_refl eq_refl eq_refl Hne eq_refl eq_refl).
  split; [exact (proj1 T)|].
  rewrite (proj1 (proj2 (proj2 T))). reflexivity.
Defined.

End Runs.
